(** * Request configuration, action suggestion, grounding sources and the
      send flow of [src/index.tsx], as a shallow embedding.

    The program keeps its state in module-level variables ([localHistory],
    [currentMedia], [lastResponseContent], [isDevMode], [devConfig]); the
    functions below take that state as an explicit record.  Strings are
    sequences of UTF-16 code units, numbers are binary64 floats. *)

From Stdlib Require Import List Bool NArith ZArith Ascii String Lia PrimFloat.
Import ListNotations.

(* ------------------------------------------------------------------ *)
(** ** JavaScript strings *)

Module JsString.

(** A string is the list of its UTF-16 code units. *)
Definition t := list N.

(** An ASCII literal of the source. *)
Definition lit (s : string) : t := map N_of_ascii (list_ascii_of_string s).

Definition eqb (a b : t) : bool :=
  if list_eq_dec N.eq_dec a b then true else false.

(** [prefixBy eq p s]: [p] is a prefix of [s], code units compared by [eq]. *)
Fixpoint prefixBy (eq : N -> N -> bool) (p s : t) : bool :=
  match p, s with
  | [], _ => true
  | _ :: _, [] => false
  | a :: p', b :: s' => eq a b && prefixBy eq p' s'
  end.

(** [occursBy eq p s]: [p] matches at some position of [s]. *)
Fixpoint occursBy (eq : N -> N -> bool) (p s : t) : bool :=
  prefixBy eq p s
  || match s with
     | [] => false
     | _ :: s' => occursBy eq p s'
     end.

(** [s.startsWith(p)] and [s.includes(p)]. *)
Definition startsWith (s p : t) : bool := prefixBy N.eqb p s.
Definition includes (s p : t) : bool := occursBy N.eqb p s.

(** [s + r]. *)
Definition concat (s r : t) : t := s ++ r.

(** The code units [String.prototype.trim] strips: white space and line
    terminators. *)
Definition isWhiteSpace (c : N) : bool :=
  existsb (N.eqb c)
    [9; 10; 11; 12; 13; 32; 160; 5760; 8232; 8233; 8239; 8287; 12288; 65279]%N
  || ((8192 <=? c) && (c <=? 8202))%N.

Fixpoint trimStart (s : t) : t :=
  match s with
  | [] => []
  | c :: s' => if isWhiteSpace c then trimStart s' else s
  end.

(** [s.trim()]. *)
Definition trim (s : t) : t := rev (trimStart (rev (trimStart s))).

(** Truthiness of a string: it is not empty. *)
Definition truthy (s : t) : bool :=
  match s with [] => false | _ :: _ => true end.

End JsString.

Definition jsstring := JsString.t.
Notation "'js' s" := (JsString.lit s%string) (at level 9, s at level 0, only parsing).

(* ------------------------------------------------------------------ *)
(** ** Regular expressions of the shape [/w1|w2|...|wn/i] *)

Module RegExp.

(** The alternatives of the pattern, each a literal word. *)
Record t := { alternatives : list jsstring; ignoreCase : bool }.

(** Case folding of the [i] flag without the [u] flag.  The words of the
    patterns are ASCII letters; a code unit from 128 on never folds to an
    ASCII one, so only [a]..[z] are moved. *)
Definition canonicalize (c : N) : N :=
  if ((97 <=? c) && (c <=? 122))%N then (c - 32)%N else c.

Definition unitEq (r : t) (a b : N) : bool :=
  if ignoreCase r then (canonicalize a =? canonicalize b)%N else (a =? b)%N.

(** [r.test(text)]: no [g] or [y] flag, so the search is unanchored and
    keeps no position between calls. *)
Definition test (r : t) (text : jsstring) : bool :=
  existsb (fun w => JsString.occursBy (unitEq r) w text) (alternatives r).

End RegExp.

Module INTENTS.
Definition SEARCH : RegExp.t :=
  {| RegExp.alternatives :=
       [js "search"; js "find"; js "latest"; js "news"; js "google";
        js "weather"; js "price"; js "stock"];
     RegExp.ignoreCase := true |}.
Definition THINK : RegExp.t :=
  {| RegExp.alternatives :=
       [js "think"; js "reason"; js "plan"; js "complex"; js "solve";
        js "math"; js "optimize"; js "architect"; js "code"];
     RegExp.ignoreCase := true |}.
End INTENTS.

(* ------------------------------------------------------------------ *)
(** ** Types and module state *)

Inductive Role := user | model.

(** [{ data, mimeType }], the staged attachment and the payload of an
    inline-data part. *)
Module Media.
Record t := { data : jsstring; mimeType : jsstring }.
End Media.

(** A [Part] as the program builds and reads it. *)
Module Part.
Record t := { inlineData : option Media.t; text : option jsstring }.
End Part.

Module Message.
Record t := {
  role : Role;
  parts : list Part.t;
  timestamp : Z;
  mode : option jsstring
}.
End Message.

Inductive AppState := idle | chatting | thinking | searching | analyzing | developer.

Module Tools.
Record t := { googleSearch : bool; googleMaps : bool; thinking : bool }.
End Tools.

Module DevConfig.
Record t := {
  systemInstruction : jsstring;
  temperature : float;
  topP : float;
  maxOutputTokens : float;
  model : jsstring;
  safetyThreshold : jsstring;
  tools : Tools.t;
  forceTools : bool
}.

(** The initial value of [devConfig]. *)
#[warnings="-inexact-float"]
Definition initial : t :=
  {| systemInstruction := js "";
     temperature := 1.0%float;
     topP := 0.95%float;
     maxOutputTokens := 2048%float;
     model := js "gemini-2.5-flash-lite";
     safetyThreshold := js "BLOCK_MEDIUM_AND_ABOVE";
     tools := {| Tools.googleSearch := false;
                 Tools.googleMaps := false;
                 Tools.thinking := false |};
     forceTools := false |}.
End DevConfig.

(** The module-level variables. *)
Module Globals.
Record t := {
  localHistory : list Message.t;
  currentMedia : option Media.t;
  appState : AppState;
  lastResponseContent : jsstring;
  isDevMode : bool;
  devConfig : DevConfig.t
}.

Definition initial : t :=
  {| localHistory := [];
     currentMedia := None;
     appState := idle;
     lastResponseContent := js "";
     isDevMode := false;
     devConfig := DevConfig.initial |}.
End Globals.

(* ------------------------------------------------------------------ *)
(** ** The request descriptor *)

Inductive Tool := googleSearchTool | googleMapsTool.

Module SafetySetting.
Record t := { category : jsstring; threshold : jsstring }.
End SafetySetting.

(** The [config] object; a field that was never assigned is [None]. *)
Module Config.
Record t := {
  thinkingConfig : option Z;            (* { thinkingBudget } *)
  tools : option (list Tool);
  systemInstruction : option jsstring;
  temperature : option float;
  topP : option float;
  maxOutputTokens : option float;
  safetySettings : option (list SafetySetting.t)
}.

(** [{}] *)
Definition empty : t :=
  {| thinkingConfig := None; tools := None; systemInstruction := None;
     temperature := None; topP := None; maxOutputTokens := None;
     safetySettings := None |}.
End Config.

Module Descriptor.
Record t := {
  model : jsstring;
  config : Config.t;
  modeLabel : jsstring;
  visualState : jsstring
}.
End Descriptor.

Definition categories : list jsstring :=
  [js "HARM_CATEGORY_HARASSMENT";
   js "HARM_CATEGORY_HATE_SPEECH";
   js "HARM_CATEGORY_SEXUALLY_EXPLICIT";
   js "HARM_CATEGORY_DANGEROUS_CONTENT"].

(** [currentMedia?.mimeType.startsWith(p)], [undefined] read as false. *)
Definition mediaStartsWith (m : option Media.t) (p : jsstring) : bool :=
  match m with
  | Some cm => JsString.startsWith (Media.mimeType cm) p
  | None => false
  end.

Section DetermineConfig.

Variable g : Globals.t.

Let isDevMode := Globals.isDevMode g.
Let devConfig := Globals.devConfig g.
Let currentMedia := Globals.currentMedia g.

(** 1. Tool logic. *)
Definition useSearch (text : jsstring) : bool :=
  if isDevMode && DevConfig.forceTools devConfig
  then Tools.googleSearch (DevConfig.tools devConfig)
  else RegExp.test INTENTS.SEARCH text.

Definition useThinking (text : jsstring) : bool :=
  if isDevMode && DevConfig.forceTools devConfig
  then Tools.thinking (DevConfig.tools devConfig)
  else RegExp.test INTENTS.THINK text.

Definition useMaps : bool :=
  if isDevMode && DevConfig.forceTools devConfig
  then Tools.googleMaps (DevConfig.tools devConfig)
  else false.

(** The branch on media, tools and developer mode: model, the fields of
    [config] it assigns, mode label and visual state. *)
Definition selectMode (text : jsstring) (hasMedia : bool) : Descriptor.t :=
  if hasMedia then
    {| Descriptor.model := js "gemini-3-pro-preview";
       Descriptor.config := Config.empty;
       Descriptor.modeLabel :=
         if mediaStartsWith currentMedia (js "video")
         then js "Video Intelligence" else js "Visual Analysis";
       Descriptor.visualState := js "glow-vision" |}
  else if useThinking text then
    {| Descriptor.model := js "gemini-3-pro-preview";
       Descriptor.config :=
         {| Config.thinkingConfig := Some 32768%Z;
            Config.tools := None; Config.systemInstruction := None;
            Config.temperature := None; Config.topP := None;
            Config.maxOutputTokens := None; Config.safetySettings := None |};
       Descriptor.modeLabel := js "Deep Thinking";
       Descriptor.visualState := js "glow-think" |}
  else if useSearch text || useMaps then
    {| Descriptor.model := js "gemini-3-flash-preview";
       Descriptor.config :=
         {| Config.thinkingConfig := None;
            Config.tools :=
              Some ((if useSearch text then [googleSearchTool] else [])
                    ++ (if useMaps then [googleMapsTool] else []));
            Config.systemInstruction := None;
            Config.temperature := None; Config.topP := None;
            Config.maxOutputTokens := None; Config.safetySettings := None |};
       Descriptor.modeLabel :=
         if useSearch text then js "Google Search" else js "Google Maps";
       Descriptor.visualState :=
         if useSearch text then js "glow-search" else js "glow-maps" |}
  else if isDevMode then
    let m := DevConfig.model devConfig in
    {| Descriptor.model := m;
       Descriptor.config := Config.empty;
       Descriptor.modeLabel :=
         if JsString.eqb m (js "gemini-3-pro-preview") then js "Gemini Pro"
         else if JsString.includes m (js "lite") then js "Gemini Lite"
         else js "Gemini Custom";
       Descriptor.visualState := js "glow-active" |}
  else
    {| Descriptor.model := js "gemini-2.5-flash-lite";
       Descriptor.config := Config.empty;
       Descriptor.modeLabel := js "Gemini Flash Lite";
       Descriptor.visualState := js "glow-active" |}.

(** 2. Developer-mode overrides applied to the [config] built so far. *)
Definition devOverrides (c : Config.t) : Config.t :=
  {| Config.thinkingConfig := Config.thinkingConfig c;
     Config.tools := Config.tools c;
     Config.systemInstruction :=
       if JsString.truthy (JsString.trim (DevConfig.systemInstruction devConfig))
       then Some (DevConfig.systemInstruction devConfig)
       else Config.systemInstruction c;
     Config.temperature := Some (DevConfig.temperature devConfig);
     Config.topP := Some (DevConfig.topP devConfig);
     Config.maxOutputTokens :=
       match Config.thinkingConfig c with
       | None => Some (DevConfig.maxOutputTokens devConfig)
       | Some _ => Config.maxOutputTokens c
       end;
     Config.safetySettings :=
       Some (map (fun cat =>
                    {| SafetySetting.category := cat;
                       SafetySetting.threshold :=
                         DevConfig.safetyThreshold devConfig |})
                 categories) |}.

Definition determineConfig (text : jsstring) (hasMedia : bool) : Descriptor.t :=
  let d := selectMode text hasMedia in
  if isDevMode then
    {| Descriptor.model := Descriptor.model d;
       Descriptor.config := devOverrides (Descriptor.config d);
       Descriptor.modeLabel :=
         JsString.concat (Descriptor.modeLabel d) (js " (Dev)");
       Descriptor.visualState := Descriptor.visualState d |}
  else d.

End DetermineConfig.


(* ------------------------------------------------------------------ *)
(** ** The action suggester *)

Module Action.
Record t := { label : jsstring; prompt : jsstring; icon : jsstring }.

Definition make (l p i : string) : t :=
  {| label := JsString.lit l; prompt := JsString.lit p; icon := JsString.lit i |}.
End Action.

(** [lastMsgRole === 'model'] for the optional argument. *)
Definition isModel (r : option Role) : bool :=
  match r with
  | Some model => true
  | _ => false
  end.

Section GetContextualActions.

Variable g : Globals.t.

Let currentMedia := Globals.currentMedia g.
Let lastResponseContent := Globals.lastResponseContent g.

(** [actions.push(a)]. *)
Let push (actions : list Action.t) (a : Action.t) := actions ++ [a].

Definition mediaActions : list Action.t :=
  let actions := [] in
  let actions := push actions
    (Action.make "Describe" "Describe this in detail." "visibility") in
  let actions :=
    if mediaStartsWith currentMedia (js "image")
    then push actions
      (Action.make "Extract Text" "Extract all text from this image." "text_fields")
    else actions in
  push actions (Action.make "Analyze" "Analyze the key elements." "analytics").

Definition textActions (text : jsstring) : list Action.t :=
  let actions := [] in
  let actions :=
    if JsString.includes text (js "code")
       || JsString.includes text (js "function")
       || JsString.includes text (js "const ")
    then
      push (push actions
        (Action.make "Fix Bugs" "Find and fix bugs in this code." "bug_report"))
        (Action.make "Explain" "Explain this code step by step." "description")
    else if RegExp.test INTENTS.SEARCH text then
      push (push actions
        (Action.make "Deep Dive" "Give me a detailed deep dive on this." "scuba_diving"))
        (Action.make "Fact Check" "Verify this information." "fact_check")
    else if RegExp.test INTENTS.THINK text then
      push actions
        (Action.make "Break Down" "Break this problem down step-by-step." "segment")
    else actions in
  if (List.length actions =? 0)%nat then
    push (push (push actions
      (Action.make "Improve" "Improve this writing." "edit_note"))
      (Action.make "Creative Twist" "Add a creative twist." "auto_awesome"))
      (Action.make "Expand" "Expand on this idea." "open_in_full")
  else actions.

Definition followUpActions (lastMsgRole : option Role) : list Action.t :=
  let actions := [] in
  let actions :=
    if isModel lastMsgRole && JsString.truthy lastResponseContent then
      let actions :=
        if JsString.includes lastResponseContent (js "```") then
          push (push actions
            (Action.make "Refactor" "Refactor this code for better performance." "build"))
            (Action.make "Add Comments" "Add detailed comments to the code." "comment")
        else if (500 <? List.length lastResponseContent)%nat then
          push actions
            (Action.make "Summarize" "Summarize the above in 3 bullet points." "short_text")
        else actions in
      push actions
        (Action.make "Verify" "Are you sure? Verify this information." "check_circle")
    else actions in
  let actions :=
    if (List.length actions =? 0)%nat then
      push (push actions
        (Action.make "Brainstorm" "Help me brainstorm creative ideas." "lightbulb"))
        (Action.make "Plan" "Help me create a structured plan." "calendar_today")
    else actions in
  firstn 4 actions.

Definition getContextualActions
    (text : jsstring) (hasMedia : bool) (lastMsgRole : option Role)
  : list Action.t :=
  if hasMedia then mediaActions
  else if (0 <? List.length text)%nat then textActions text
  else followUpActions lastMsgRole.

End GetContextualActions.

(** Does the list hold an action with this label? *)
Definition hasLabel (l : string) (actions : list Action.t) : bool :=
  existsb (fun a => JsString.eqb (Action.label a) (JsString.lit l)) actions.


(* ------------------------------------------------------------------ *)
(** ** Exceptions *)

Inductive Exn :=
| TypeError
| Failure (message : jsstring).

Inductive Result (A : Type) :=
| Ok (a : A)
| Throw (e : Exn).

Arguments Ok {A} a.
Arguments Throw {A} e.

Module ResultMonad.
Definition bind {A B} (r : Result A) (k : A -> Result B) : Result B :=
  match r with
  | Ok a => k a
  | Throw e => Throw e
  end.
End ResultMonad.

Notation "x <-! r ;; k" := (ResultMonad.bind r (fun x => k))
  (at level 61, r at next level, right associativity).

(** [l.filter(p)] and [l.map(f)] with a callback that can throw: the first
    throw ends the traversal. *)
Fixpoint filterR {A} (p : A -> Result bool) (l : list A) : Result (list A) :=
  match l with
  | [] => Ok []
  | x :: l' =>
      b <-! p x ;;
      r <-! filterR p l' ;;
      Ok (if b then x :: r else r)
  end.

Fixpoint mapR {A B} (f : A -> Result B) (l : list A) : Result (list B) :=
  match l with
  | [] => Ok []
  | x :: l' =>
      y <-! f x ;;
      r <-! mapR f l' ;;
      Ok (y :: r)
  end.

(* ------------------------------------------------------------------ *)
(** ** Untyped values: the grounding metadata is read as [any] *)

Module JsValue.

(** An object is the list of its own properties, each name once. *)
#[warnings="-register-all"]
Inductive t :=
| Undefined
| Null
| Boolean (b : bool)
| Number (f : float)
| String (s : jsstring)
| Object (props : list (jsstring * t))
| Array (items : list t).

Definition truthy (v : t) : bool :=
  match v with
  | Undefined | Null => false
  | Boolean b => b
  | Number f => negb (PrimFloat.is_zero f || PrimFloat.is_nan f)
  | String s => JsString.truthy s
  | Object _ | Array _ => true
  end.

(** [a || b]. *)
Definition or (a b : t) : t := if truthy a then a else b.

Fixpoint lookup (k : jsstring) (props : list (jsstring * t)) : t :=
  match props with
  | [] => Undefined
  | (k', v) :: rest => if JsString.eqb k k' then v else lookup k rest
  end.

(** [v.k] for the names read from grounding metadata ([groundingChunks],
    [web], [maps], [uri], [title]): none of them is a member of a
    prototype, so only an object's own property gives a value; the
    access throws on [undefined] and [null]. *)
Definition get (v : t) (k : jsstring) : Result t :=
  match v with
  | Undefined | Null => Throw TypeError
  | Object props => Ok (lookup k props)
  | Boolean _ | Number _ | String _ | Array _ => Ok Undefined
  end.

End JsValue.

(* ------------------------------------------------------------------ *)
(** ** Grounding sources *)

(** One [a.source-card] element: its [href], the subject of its tooltip,
    its icon and its title, each before conversion to text. *)
Module Card.
Record t := {
  href : JsValue.t;
  tooltip : JsValue.t;
  icon : jsstring;
  title : JsValue.t
}.
End Card.

(** The [.sources-container] element under a message's content element, if
    there is one: it holds a [.sources-grid] with its children, or none. *)
Inductive SourcesContainer :=
| NoGrid
| Grid (children : list Card.t).

(** [metadata.groundingChunks || []] as the array the two [filter] calls
    run on; a truthy value that is not an array has no [filter]. *)
Definition groundingChunks (metadata : JsValue.t) : Result (list JsValue.t) :=
  v <-! JsValue.get metadata (js "groundingChunks") ;;
  match JsValue.or v (JsValue.Array []) with
  | JsValue.Array items => Ok items
  | _ => Throw TypeError
  end.

(** [chunks.filter(c => c.k).map(c => c.k)]. *)
Definition sourcesBy (k : jsstring) (chunks : list JsValue.t) : Result (list JsValue.t) :=
  kept <-! filterR (fun c => v <-! JsValue.get c k ;; Ok (JsValue.truthy v)) chunks ;;
  mapR (fun c => JsValue.get c k) kept.

(** The card built for one source [s]. *)
Definition sourceCard (s : JsValue.t) : Result Card.t :=
  uri <-! JsValue.get s (js "uri") ;;
  title <-! JsValue.get s (js "title") ;;
  maps <-! JsValue.get s (js "maps") ;;
  Ok {| Card.href := uri;
        Card.tooltip := JsValue.or title (JsValue.String (js "External link"));
        Card.icon := if JsValue.truthy maps then js "place" else js "public";
        Card.title := JsValue.or title uri |}.

(** [sources.forEach(s => { ...; grid.appendChild(card) })]. *)
Fixpoint appendCards (sources : list JsValue.t) (grid : list Card.t)
  : Result (list Card.t) * list Card.t :=
  match sources with
  | [] => (Ok grid, grid)
  | s :: rest =>
      match sourceCard s with
      | Ok card => appendCards rest (grid ++ [card])
      | Throw e => (Throw e, grid)
      end
  end.

(** [renderGroundingSources(metadata, container)]: the result and the
    sources container of [container] afterwards. *)
Definition renderGroundingSources
    (metadata : JsValue.t) (container : option SourcesContainer)
  : Result unit * option SourcesContainer :=
  let sourcesContainer :=
    match container with
    | Some sc => sc
    | None => Grid []
    end in
  match sourcesContainer with
  | NoGrid => (Ok tt, Some NoGrid)
  | Grid children =>
      match
        (chunks <-! groundingChunks metadata ;;
         webSources <-! sourcesBy (js "web") chunks ;;
         mapSources <-! sourcesBy (js "maps") chunks ;;
         Ok (webSources ++ mapSources))
      with
      | Throw e => (Throw e, Some (Grid children))
      | Ok sources =>
          match appendCards sources [] with
          | (Ok _, grid) => (Ok tt, Some (Grid grid))
          | (Throw e, grid) => (Throw e, Some (Grid grid))
          end
      end
  end.

(** The cards of the grid after a call, when there is a grid. *)
Definition renderedCards (c : option SourcesContainer) : list Card.t :=
  match c with
  | Some (Grid cards) => cards
  | _ => []
  end.

(* ------------------------------------------------------------------ *)
(** ** The send flow *)

(** [{ role, parts }], an entry of the history handed to the backend. *)
Module Content.
Record t := { role : Role; parts : list Part.t }.
End Content.

(** The [message] of [sendMessageStream]: a string or the list of parts. *)
Inductive Payload :=
| TextPayload (s : jsstring)
| PartsPayload (ps : list Part.t).

(** One fragment of the stream: [chunk.text] and
    [chunk.candidates?.[0]?.groundingMetadata]. *)
Module Chunk.
Record t := { text : option jsstring; groundingMetadata : JsValue.t }.
End Chunk.

(** What the collaborators of one send do: the clock, the local storage,
    the backend and the markdown renderer.  Of the markup the renderer
    returns, the send flow reads back only the [.sources-container] element
    it holds, if any. *)
Module Env.
Record t := {
  userTimestamp : Z;
  modelTimestamp : Z;
  setItemThrows : list Message.t -> bool;
  createThrows : option Exn;
  stream : Result (list Chunk.t * option Exn);
  markedParse : jsstring -> Result (option SourcesContainer)
}.
End Env.

(** The calls that leave the program, in the order they are made. *)
Inductive Event :=
| SetItemHistory (value : list Message.t) (stored : bool)
| ChatsCreate (model : jsstring) (history : list Content.t) (config : Config.t)
| SendMessageStream (message : Payload)
| ConsoleError (e : Exn).

(** The module state, the stored history (as the value its JSON text stands
    for), the input field, the sources container of the reply being
    rendered, and the calls made so far. *)
Module World.
Record t := {
  globals : Globals.t;
  storedHistory : option (list Message.t);
  inputValue : jsstring;
  sources : option SourcesContainer;
  trace : list Event
}.
End World.

(** Statements: a world goes in, a result or an exception and a world come
    out; what was done before a throw stays done. *)
Definition M (A : Type) : Type := World.t -> Result A * World.t.

Module M.
Definition ret {A} (a : A) : M A := fun w => (Ok a, w).

Definition bind {A B} (m : M A) (k : A -> M B) : M B :=
  fun w =>
    match m w with
    | (Ok a, w') => k a w'
    | (Throw e, w') => (Throw e, w')
    end.

Definition throw {A} (e : Exn) : M A := fun w => (Throw e, w).

Definition lift {A} (r : Result A) : M A := fun w => (r, w).

(** [try { body } catch (e) { handler }]. *)
Definition tryCatch (body : M unit) (handler : Exn -> M unit) : M unit :=
  fun w =>
    match body w with
    | (Ok _, w') => (Ok tt, w')
    | (Throw e, w') => handler e w'
    end.

Definition getGlobals : M Globals.t := fun w => (Ok (World.globals w), w).

Definition modifyGlobals (f : Globals.t -> Globals.t) : M unit :=
  fun w =>
    (Ok tt,
     {| World.globals := f (World.globals w);
        World.storedHistory := World.storedHistory w;
        World.inputValue := World.inputValue w;
        World.sources := World.sources w;
        World.trace := World.trace w |}).

Definition setStoredHistory (h : list Message.t) : M unit :=
  fun w =>
    (Ok tt,
     {| World.globals := World.globals w;
        World.storedHistory := Some h;
        World.inputValue := World.inputValue w;
        World.sources := World.sources w;
        World.trace := World.trace w |}).

Definition getInputValue : M jsstring := fun w => (Ok (World.inputValue w), w).

Definition setInputValue (v : jsstring) : M unit :=
  fun w =>
    (Ok tt,
     {| World.globals := World.globals w;
        World.storedHistory := World.storedHistory w;
        World.inputValue := v;
        World.sources := World.sources w;
        World.trace := World.trace w |}).

Definition setSources (c : option SourcesContainer) : M unit :=
  fun w =>
    (Ok tt,
     {| World.globals := World.globals w;
        World.storedHistory := World.storedHistory w;
        World.inputValue := World.inputValue w;
        World.sources := c;
        World.trace := World.trace w |}).

Definition emit (e : Event) : M unit :=
  fun w =>
    (Ok tt,
     {| World.globals := World.globals w;
        World.storedHistory := World.storedHistory w;
        World.inputValue := World.inputValue w;
        World.sources := World.sources w;
        World.trace := World.trace w ++ [e] |}).
End M.

Notation "x <- m ;; k" := (M.bind m (fun x => k))
  (at level 61, m at next level, right associativity).
Notation "m ;; k" := (M.bind m (fun _ => k))
  (at level 61, right associativity).

(** Assignments to the module-level variables. *)
Definition pushHistory (msg : Message.t) (g : Globals.t) : Globals.t :=
  {| Globals.localHistory := Globals.localHistory g ++ [msg];
     Globals.currentMedia := Globals.currentMedia g;
     Globals.appState := Globals.appState g;
     Globals.lastResponseContent := Globals.lastResponseContent g;
     Globals.isDevMode := Globals.isDevMode g;
     Globals.devConfig := Globals.devConfig g |}.

Definition setCurrentMedia (m : option Media.t) (g : Globals.t) : Globals.t :=
  {| Globals.localHistory := Globals.localHistory g;
     Globals.currentMedia := m;
     Globals.appState := Globals.appState g;
     Globals.lastResponseContent := Globals.lastResponseContent g;
     Globals.isDevMode := Globals.isDevMode g;
     Globals.devConfig := Globals.devConfig g |}.

Definition setAppState (a : AppState) (g : Globals.t) : Globals.t :=
  {| Globals.localHistory := Globals.localHistory g;
     Globals.currentMedia := Globals.currentMedia g;
     Globals.appState := a;
     Globals.lastResponseContent := Globals.lastResponseContent g;
     Globals.isDevMode := Globals.isDevMode g;
     Globals.devConfig := Globals.devConfig g |}.

Definition setLastResponseContent (s : jsstring) (g : Globals.t) : Globals.t :=
  {| Globals.localHistory := Globals.localHistory g;
     Globals.currentMedia := Globals.currentMedia g;
     Globals.appState := Globals.appState g;
     Globals.lastResponseContent := s;
     Globals.isDevMode := Globals.isDevMode g;
     Globals.devConfig := Globals.devConfig g |}.

(** [!!currentMedia]. *)
Definition hasMediaOf (g : Globals.t) : bool :=
  match Globals.currentMedia g with
  | Some _ => true
  | None => false
  end.

Definition textPart (s : jsstring) : Part.t :=
  {| Part.inlineData := None; Part.text := Some s |}.

Definition inlinePart (m : Media.t) : Part.t :=
  {| Part.inlineData :=
       Some {| Media.data := Media.data m; Media.mimeType := Media.mimeType m |};
     Part.text := None |}.

(** [parts.length === 1 && parts[0].text ? parts[0].text : parts]. *)
Definition payloadOf (parts : list Part.t) : Payload :=
  match parts with
  | [p] =>
      match Part.text p with
      | Some s => if JsString.truthy s then TextPayload s else PartsPayload parts
      | None => PartsPayload parts
      end
  | _ => PartsPayload parts
  end.

Definition toContent (m : Message.t) : Content.t :=
  {| Content.role := Message.role m; Content.parts := Message.parts m |}.

Section Send.

Variable env : Env.t.

(** [saveMessage(msg)]: the push, then the write to local storage with
    its exception swallowed. *)
Definition saveMessage (msg : Message.t) : M unit :=
  M.modifyGlobals (pushHistory msg) ;;
  g <- M.getGlobals ;;
  let h := Globals.localHistory g in
  if Env.setItemThrows env h
  then M.emit (SetItemHistory h false)
  else M.setStoredHistory h ;; M.emit (SetItemHistory h true).

(** [ai.chats.create({ model, history, config })]. *)
Definition chatsCreate
    (model : jsstring) (history : list Content.t) (config : Config.t) : M unit :=
  M.emit (ChatsCreate model history config) ;;
  match Env.createThrows env with
  | Some e => M.throw e
  | None => M.ret tt
  end.

(** [await chat.sendMessageStream({ message })]: the chunks of the stream
    and the exception that ends it, if one does. *)
Definition sendMessageStream (message : Payload)
  : M (list Chunk.t * option Exn) :=
  M.emit (SendMessageStream message) ;;
  M.lift (Env.stream env).

(** The call of [renderGroundingSources] on the content element. *)
Definition renderSources (metadata : JsValue.t) : M unit :=
  fun w =>
    let (r, c) := renderGroundingSources metadata (World.sources w) in
    M.bind (M.setSources c) (fun _ => M.lift r) w.

(** The body of [for await (const chunk of result)], over the chunks that
    arrive; the accumulated text is its result. *)
Fixpoint consume (chunks : list Chunk.t) (fullResponseText : jsstring)
  : M jsstring :=
  match chunks with
  | [] => M.ret fullResponseText
  | chunk :: rest =>
      let fullResponseText :=
        JsString.concat fullResponseText
          match Chunk.text chunk with
          | Some s => s
          | None => js "undefined"
          end in
      parsedHTML <- M.lift (Env.markedParse env fullResponseText) ;;
      M.setSources parsedHTML ;;
      (if JsValue.truthy (Chunk.groundingMetadata chunk)
       then renderSources (Chunk.groundingMetadata chunk)
       else M.ret tt) ;;
      consume rest fullResponseText
  end.

(** The [try] block of [handleSend]; the refresh of the quick actions that
    ends it touches elements only. *)
Definition exchange (d : Descriptor.t) (parts : list Part.t) : M unit :=
  g <- M.getGlobals ;;
  let historyForApi := map toContent (Globals.localHistory g) in
  chatsCreate (Descriptor.model d) historyForApi (Descriptor.config d) ;;
  result <- sendMessageStream (payloadOf parts) ;;
  fullResponseText <- consume (fst result) (js "") ;;
  match snd result with
  | Some e => M.throw e
  | None => M.ret tt
  end ;;
  M.modifyGlobals (setLastResponseContent fullResponseText) ;;
  saveMessage
    {| Message.role := model;
       Message.parts := [textPart fullResponseText];
       Message.timestamp := Env.modelTimestamp env;
       Message.mode := Some (Descriptor.modeLabel d) |}.

(** The user turn [handleSend] builds from the trimmed text and the
    staged attachment. *)
Definition userParts (text : jsstring) (media : option Media.t) : list Part.t :=
  match media with
  | Some m => [inlinePart m]
  | None => []
  end
  ++ (if JsString.truthy text then [textPart text] else []).

Definition userMessage (text : jsstring) (media : option Media.t) : Message.t :=
  {| Message.role := user;
     Message.parts := userParts text media;
     Message.timestamp := Env.userTimestamp env;
     Message.mode := None |}.

(** [handleSend()], one run from the event to the end of its [finally];
    the updates of elements and styles are left out. *)
Definition handleSend : M unit :=
  value <- M.getInputValue ;;
  g <- M.getGlobals ;;
  let text := JsString.trim value in
  if negb (JsString.truthy text) && negb (hasMediaOf g) then M.ret tt
  else
    M.modifyGlobals (setAppState chatting) ;;
    g <- M.getGlobals ;;
    let d := determineConfig g text (hasMediaOf g) in
    let userMsg := userMessage text (Globals.currentMedia g) in
    M.setInputValue (js "") ;;
    M.modifyGlobals (setCurrentMedia None) ;;
    saveMessage userMsg ;;
    M.setSources None ;;
    M.tryCatch
      (exchange d (Message.parts userMsg))
      (fun e => M.emit (ConsoleError e)).

End Send.


(* ------------------------------------------------------------------ *)
(** ** States used in the examples *)

(** Developer mode switched on, the configuration as given. *)
Definition devGlobals (dc : DevConfig.t) (media : option Media.t) : Globals.t :=
  {| Globals.localHistory := [];
     Globals.currentMedia := media;
     Globals.appState := idle;
     Globals.lastResponseContent := js "";
     Globals.isDevMode := true;
     Globals.devConfig := dc |}.

(** Manual tool selection with the three switches off. *)
#[warnings="-inexact-float"]
Definition manualNoTools : DevConfig.t :=
  {| DevConfig.systemInstruction := js "";
     DevConfig.temperature := 1.0%float;
     DevConfig.topP := 0.95%float;
     DevConfig.maxOutputTokens := 2048%float;
     DevConfig.model := js "gemini-2.5-flash-lite";
     DevConfig.safetyThreshold := js "BLOCK_ONLY_HIGH";
     DevConfig.tools := {| Tools.googleSearch := false;
                           Tools.googleMaps := false;
                           Tools.thinking := false |};
     DevConfig.forceTools := true |}.

Definition stagedWith (mime : string) : Globals.t :=
  setCurrentMedia
    (Some {| Media.data := js "AAAA"; Media.mimeType := JsString.lit mime |})
    Globals.initial.

(** A model reply has arrived with a fence in it, and an image is staged. *)
Definition fencedReplyWithImage : Globals.t :=
  setLastResponseContent (js "```") (stagedWith "image/png").

(** Grounding metadata as the backend sends it. *)
Definition sourceObject (uri title : string) : JsValue.t :=
  JsValue.Object
    [(js "uri", JsValue.String (JsString.lit uri));
     (js "title", JsValue.String (JsString.lit title))].

Definition webChunk (uri title : string) : JsValue.t :=
  JsValue.Object [(js "web", sourceObject uri title)].

Definition mapsChunk (uri title : string) : JsValue.t :=
  JsValue.Object [(js "maps", sourceObject uri title)].

Definition metadataOf (chunks : list JsValue.t) : JsValue.t :=
  JsValue.Object [(js "groundingChunks", JsValue.Array chunks)].

(** The same web page cited twice. *)
Definition repeatedMetadata : JsValue.t :=
  metadataOf [webChunk "https://a.example/" "A"; webChunk "https://a.example/" "A"].

(** A web page and a place. *)
Definition mixedMetadata : JsValue.t :=
  metadataOf [mapsChunk "https://maps.example/p" "Cafe";
              webChunk "https://a.example/" "A"].

(* ------------------------------------------------------------------ *)
(** ** Reading grounding metadata without exceptions *)

Definition isNullish (v : JsValue.t) : bool :=
  match v with
  | JsValue.Undefined | JsValue.Null => true
  | _ => false
  end.

(** [v.k] for a value on which the access does not throw. *)
Definition prop (k : jsstring) (v : JsValue.t) : JsValue.t :=
  match JsValue.get v k with
  | Ok x => x
  | Throw _ => JsValue.Undefined
  end.

(** The sources of a list of chunks: the truthy [web] members in the order
    of the chunks, then the truthy [maps] members in the order of the
    chunks. *)
Definition sourcesOfChunks (chunks : list JsValue.t) : list JsValue.t :=
  filter JsValue.truthy (map (prop (js "web")) chunks)
  ++ filter JsValue.truthy (map (prop (js "maps")) chunks).

(** The card of a source on which member access does not throw. *)
Definition cardOf (s : JsValue.t) : Card.t :=
  {| Card.href := prop (js "uri") s;
     Card.tooltip :=
       JsValue.or (prop (js "title") s) (JsValue.String (js "External link"));
     Card.icon :=
       if JsValue.truthy (prop (js "maps") s) then js "place" else js "public";
     Card.title := JsValue.or (prop (js "title") s) (prop (js "uri") s) |}.

(* ------------------------------------------------------------------ *)
(** ** Reading the trace of a send *)

Definition isSetItem (e : Event) : bool :=
  match e with
  | SetItemHistory _ _ => true
  | _ => false
  end.

Definition isChatsCreate (e : Event) : bool :=
  match e with
  | ChatsCreate _ _ _ => true
  | _ => false
  end.

Definition isSendMessageStream (e : Event) : bool :=
  match e with
  | SendMessageStream _ => true
  | _ => false
  end.

(** Two worlds that differ at most in the sources container. *)
Definition sameButSources (w w' : World.t) : Prop :=
  World.globals w' = World.globals w
  /\ World.storedHistory w' = World.storedHistory w
  /\ World.inputValue w' = World.inputValue w
  /\ World.trace w' = World.trace w.

(** The model turn saved when a stream ends. *)
Definition modelMessage (env : Env.t) (d : Descriptor.t) (full : jsstring)
  : Message.t :=
  {| Message.role := model;
     Message.parts := [textPart full];
     Message.timestamp := Env.modelTimestamp env;
     Message.mode := Some (Descriptor.modeLabel d) |}.

(** The world in which the [try] block of [handleSend] starts: the state
    set to chatting, the input and the staged attachment cleared, the user
    turn pushed and its write issued, a fresh content element. *)
Definition afterUserTurn (env : Env.t) (w : World.t) : World.t :=
  let g := World.globals w in
  let u := userMessage env (JsString.trim (World.inputValue w))
             (Globals.currentMedia g) in
  let h := Globals.localHistory g ++ [u] in
  {| World.globals := pushHistory u (setCurrentMedia None (setAppState chatting g));
     World.storedHistory :=
       if Env.setItemThrows env h then World.storedHistory w else Some h;
     World.inputValue := js "";
     World.sources := None;
     World.trace :=
       World.trace w ++ [SetItemHistory h (negb (Env.setItemThrows env h))] |}.

(** "plan a trip" typed in, nothing sent yet. *)
Definition typedWorld : World.t :=
  {| World.globals := Globals.initial;
     World.storedHistory := None;
     World.inputValue := js " plan a trip ";
     World.sources := None;
     World.trace := [] |}.

(** The backend streams one fragment, then the stream breaks. *)
Definition brokenStream : Env.t :=
  {| Env.userTimestamp := 1700000000000;
     Env.modelTimestamp := 1700000002000;
     Env.setItemThrows := fun _ => false;
     Env.createThrows := None;
     Env.stream :=
       Ok ([{| Chunk.text := Some (js "Day 1");
               Chunk.groundingMetadata := JsValue.Undefined |}],
           Some (Failure (js "network error")));
     Env.markedParse := fun _ => Ok None |}.

(* ------------------------------------------------------------------ *)
(** ** The status line of a reply and the state class of the container *)

(** The colour [renderAgentStatus] gives the status dot of [label]. *)
Definition statusColor (label : jsstring) : jsstring :=
  if JsString.includes label (js "Think") then js "#AF52DE"
  else if JsString.includes label (js "Search") then js "#34C759"
  else if JsString.includes label (js "Maps") then js "#FF9500"
  else if JsString.includes label (js "Video") || JsString.includes label (js "Vis")
  then js "#FF2D55"
  else if JsString.includes label (js "Dev") then js "#FF3B30"
  else js "#888".

(** The label [handleSend] hands to [renderAgentStatus]. *)
Definition statusLabel (modeLabel : jsstring) : jsstring :=
  if JsString.eqb modeLabel (js "Gemini Flash Lite") then js "Generating"
  else modeLabel.

(** The class [handleSend] adds to the container for the time of the
    exchange, if it adds one. *)
Definition sendStateClass (modeLabel : jsstring) (isDevMode : bool)
  : option jsstring :=
  if JsString.includes modeLabel (js "Think") then Some (js "state-thinking")
  else if JsString.includes modeLabel (js "Search") then Some (js "state-searching")
  else if JsString.includes modeLabel (js "Video")
          || JsString.includes modeLabel (js "Vis")
  then Some (js "state-analyzing")
  else if isDevMode then Some (js "state-dev")
  else None.

(* ------------------------------------------------------------------ *)
(** ** What the input row shows *)

(** The second class of the input wrapper, the label of the mode pill when
    the pill is shown, and whether the send button is marked active. *)
Module InputView.
Record t := {
  wrapperClass : jsstring;
  pillLabel : option jsstring;
  sendActive : bool
}.
End InputView.

(** [updateUIForInput()] for the text in the input field. *)
Definition updateUIForInput (g : Globals.t) (text : jsstring) : InputView.t :=
  let hasMedia := hasMediaOf g in
  let d := determineConfig g text hasMedia in
  let shown := (2 <? List.length text)%nat || hasMedia || Globals.isDevMode g in
  {| InputView.wrapperClass :=
       if (0 <? List.length text)%nat || hasMedia || Globals.isDevMode g
       then Descriptor.visualState d else js "";
     InputView.pillLabel := if shown then Some (Descriptor.modeLabel d) else None;
     InputView.sendActive := shown |}.

(** [localHistory[localHistory.length - 1]], when the history is not empty. *)
Definition lastMessage (g : Globals.t) : option Message.t :=
  last (map Some (Globals.localHistory g)) None.

(** [updateQuickActions()]: the chips of the bar when it is shown, [None]
    when the bar is hidden. *)
Definition updateQuickActions (g : Globals.t) (text : jsstring)
  : option (list Action.t) :=
  let actions :=
    getContextualActions g text (hasMediaOf g)
      (option_map Message.role (lastMessage g)) in
  if (0 <? List.length actions)%nat then Some actions else None.

(* ------------------------------------------------------------------ *)
(** ** Developer mode, attachments, drag and drop *)

Definition setIsDevMode (b : bool) (g : Globals.t) : Globals.t :=
  {| Globals.localHistory := Globals.localHistory g;
     Globals.currentMedia := Globals.currentMedia g;
     Globals.appState := Globals.appState g;
     Globals.lastResponseContent := Globals.lastResponseContent g;
     Globals.isDevMode := b;
     Globals.devConfig := Globals.devConfig g |}.

(** [toggleDevMode(forceState?)]: the module state afterwards and the flag
    it writes to local storage. *)
Definition toggleDevMode (forceState : option bool) (g : Globals.t)
  : Globals.t * bool :=
  let b := match forceState with
           | Some f => f
           | None => negb (Globals.isDevMode g)
           end in
  (setIsDevMode b g, b).

(** A file as [handleFile] reads it: its type and the data URL that
    [readAsDataURL] produces for it. *)
Module File.
Record t := { type : jsstring; result : jsstring }.
End File.

(** [s.split(',')]. *)
Fixpoint splitComma (s : jsstring) : list jsstring :=
  match s with
  | [] => [[]]
  | c :: s' =>
      if (c =? 44)%N then [] :: splitComma s'
      else match splitComma s' with
           | [] => [[c]]
           | first :: rest => (c :: first) :: rest
           end
  end.

(** [handleFile(file)] with the [onload] of its reader: [Some] of the module
    state afterwards.  A data URL has a comma; for a result without one the
    source stages an attachment whose data is [undefined], which [Media.t]
    does not hold: [None]. *)
Definition handleFile (file : File.t) (g : Globals.t) : option Globals.t :=
  let isImage := JsString.startsWith (File.type file) (js "image/") in
  let isVideo := JsString.startsWith (File.type file) (js "video/") in
  if negb isImage && negb isVideo then Some g
  else
    match nth_error (splitComma (File.result file)) 1 with
    | Some data =>
        Some (setCurrentMedia
                (Some {| Media.data := data; Media.mimeType := File.type file |}) g)
    | None => None
    end.

(** An item of the clipboard: its type and what [getAsFile()] returns. *)
Module ClipboardItem.
Record t := { type : jsstring; getAsFile : option File.t }.
End ClipboardItem.

(** The [paste] listener: the loop over the items ends at the first one
    whose type holds [image] or [video]. *)
Fixpoint handlePaste (items : list ClipboardItem.t) (g : Globals.t)
  : option Globals.t :=
  match items with
  | [] => Some g
  | item :: rest =>
      if JsString.includes (ClipboardItem.type item) (js "image")
         || JsString.includes (ClipboardItem.type item) (js "video")
      then match ClipboardItem.getAsFile item with
           | Some blob => handleFile blob g
           | None => Some g
           end
      else handlePaste rest g
  end.

(** [dragCounter] and whether the input wrapper carries [drag-active]. *)
Module Drag.
Record t := { dragCounter : Z; dragActive : bool }.

Definition initial : t := {| dragCounter := 0; dragActive := false |}.
End Drag.



(* ------------------------------------------------------------------ *)
(** ** Start-up with a restored history *)


(* ------------------------------------------------------------------ *)
(** ** Vocabulary for the statements *)

(** The text a stream of chunks adds up to: [fullResponseText] after the
    loop, a chunk without text counting as ["undefined"]. *)
Definition streamText (chunks : list Chunk.t) : jsstring :=
  fold_left
    (fun full chunk =>
       JsString.concat full
         match Chunk.text chunk with
         | Some s => s
         | None => js "undefined"
         end)
    chunks (js "").

(** No code unit of [s] is a code unit that [trim] strips. *)
Definition noWhiteSpace (s : jsstring) : bool :=
  forallb (fun c => negb (JsString.isWhiteSpace c)) s.

(** [s] is made of white space only. *)
Definition blank (s : jsstring) : bool := forallb JsString.isWhiteSpace s.

(** The words of a pattern are lower-case letters. *)
Definition lowerCaseWords (r : RegExp.t) : bool :=
  forallb (forallb (fun a => (97 <=? a) && (a <=? 122))%N) (RegExp.alternatives r).

(** Two texts that differ only in the case of ASCII letters. *)
Definition sameUpToCase (a b : jsstring) : Prop :=
  map RegExp.canonicalize a = map RegExp.canonicalize b.


(** The tool list names the search tool. *)
Definition hasSearchTool (tools : list Tool) : bool :=
  existsb (fun t => match t with
                    | googleSearchTool => true
                    | googleMapsTool => false
                    end) tools.

(** The code unit of the comma. *)
Definition comma : N := 44%N.


(** Developer mode on with manual tool selection. *)
Definition manualSelection (g : Globals.t) : bool :=
  Globals.isDevMode g && DevConfig.forceTools (Globals.devConfig g).

(** The trace events a run added. *)
Definition addedBy (w w' : World.t) (calls : list Event) : Prop :=
  World.trace w' = World.trace w ++ calls.

(** An image was dropped on a fresh page. *)
Definition pngFile : File.t :=
  {| File.type := js "image/png";
     File.result := js "data:image/png;base64,iVBORw0KGgo=" |}.

Definition pdfFile : File.t :=
  {| File.type := js "application/pdf";
     File.result := js "data:application/pdf;base64,JVBERi0=" |}.

(** The backend answers in two fragments and the stream ends. *)
Definition twoFragments : Env.t :=
  {| Env.userTimestamp := 1700000000000;
     Env.modelTimestamp := 1700000002000;
     Env.setItemThrows := fun _ => false;
     Env.createThrows := None;
     Env.stream :=
       Ok ([{| Chunk.text := Some (js "Day 1: ");
               Chunk.groundingMetadata := JsValue.Undefined |};
            {| Chunk.text := Some (js "Kyoto");
               Chunk.groundingMetadata := JsValue.Undefined |}],
           None);
     Env.markedParse := fun _ => Ok None |}.

(* ------------------------------------------------------------------ *)
(** ** Proof steps *)

(** Case analysis on membership in a list given by its elements. *)
Ltac in_cases :=
  repeat match goal with
         | H : In _ (_ :: _) |- _ => destruct H as [H|H]; [try discriminate H|]
         | H : In _ [] |- _ => destruct H
         end.

(* ------------------------------------------------------------------ *)
(** * Properties of [determineConfig] *)

(** The developer overrides leave the reasoning budget as they find it. *)
Lemma devOverrides_thinkingConfig g c :
  Config.thinkingConfig (devOverrides g c) = Config.thinkingConfig c.
Proof. reflexivity. Qed.

(** The branch on media and tools never assigns [maxOutputTokens],
    [safetySettings], [temperature] or [topP]. *)
Lemma selectMode_leaves_overrides_unset g text hasMedia :
  let c := Descriptor.config (selectMode g text hasMedia) in
  Config.maxOutputTokens c = None /\ Config.safetySettings c = None.
Proof.
  unfold selectMode.
  destruct hasMedia; [now split|].
  destruct (useThinking g text); [now split|].
  destruct (useSearch g text || useMaps g); [now split|].
  destruct (Globals.isDevMode g); now split.
Qed.

(** C1. Whenever the descriptor of [determineConfig] carries a reasoning
    budget ([thinkingConfig]), its generation config has no
    [maxOutputTokens], for every text, media flag and module state. *)
Theorem thinking_budget_excludes_max_output_tokens :
  forall (g : Globals.t) (text : jsstring) (hasMedia : bool) (budget : Z),
    Config.thinkingConfig
      (Descriptor.config (determineConfig g text hasMedia)) = Some budget ->
    Config.maxOutputTokens
      (Descriptor.config (determineConfig g text hasMedia)) = None.
Proof.
  intros g text hasMedia budget.
  unfold determineConfig.
  destruct (selectMode_leaves_overrides_unset g text hasMedia) as [Hmax _].
  destruct (Globals.isDevMode g); cbn [Descriptor.config].
  - rewrite devOverrides_thinkingConfig. intros Hb.
    unfold devOverrides; cbn [Config.maxOutputTokens].
    rewrite Hb. exact Hmax.
  - intros _. exact Hmax.
Qed.

Lemma thinking_budget_excludes_max_output_tokens_witness :
  let d := determineConfig (devGlobals DevConfig.initial None)
             (js "think about it") false in
  Config.thinkingConfig (Descriptor.config d) = Some 32768%Z
  /\ Config.maxOutputTokens (Descriptor.config d) = None.
Proof.
  split.
  - vm_compute. reflexivity.
  - apply (@thinking_budget_excludes_max_output_tokens
             (devGlobals DevConfig.initial None) (js "think about it") false 32768%Z).
    vm_compute. reflexivity.
Defined.

(** The label of the media branch reads the staged attachment itself. *)
Lemma selectMode_media_label g text :
  Descriptor.modeLabel (selectMode g text true)
  = if mediaStartsWith (Globals.currentMedia g) (js "video")
    then js "Video Intelligence" else js "Visual Analysis".
Proof. reflexivity. Qed.

(** What [selectMode] reads of the module state. *)
Lemma selectMode_reads g1 g2 text hasMedia :
  Globals.isDevMode g1 = Globals.isDevMode g2 ->
  Globals.devConfig g1 = Globals.devConfig g2 ->
  (hasMedia = true ->
   mediaStartsWith (Globals.currentMedia g1) (js "video")
   = mediaStartsWith (Globals.currentMedia g2) (js "video")) ->
  selectMode g1 text hasMedia = selectMode g2 text hasMedia.
Proof.
  intros Hm Hc Hv.
  unfold selectMode, useThinking, useSearch, useMaps.
  rewrite Hm, Hc.
  destruct hasMedia; [rewrite (Hv eq_refl)|]; reflexivity.
Qed.

(** C2, as stated, fails: with an attachment staged in both runs, the same
    text, the same developer-mode flag and the same developer
    configuration, a staged video and a staged image give descriptors with
    different mode labels. *)
Lemma same_four_inputs_different_descriptor :
  let g1 := stagedWith "video/mp4" in
  let g2 := stagedWith "image/png" in
  Globals.isDevMode g1 = Globals.isDevMode g2
  /\ Globals.devConfig g1 = Globals.devConfig g2
  /\ hasMediaOf g1 = true /\ hasMediaOf g2 = true
  /\ determineConfig g1 (js "what is this") true
     <> determineConfig g2 (js "what is this") true.
Proof.
  cbv zeta. repeat split; try reflexivity.
  intros H.
  apply (f_equal Descriptor.modeLabel) in H.
  vm_compute in H. discriminate H.
Qed.

(** C2, amended.  The descriptor is a function of the text, the media flag,
    the developer-mode flag, the developer configuration and, when the
    media flag is set, whether the staged attachment's MIME type starts
    with [video]: two module states that agree on these give the same
    descriptor; and the model id, the generation config and the visual
    state are the same even when the two states disagree on the
    attachment. *)
Theorem determineConfig_depends_on :
  forall (g1 g2 : Globals.t) (text : jsstring) (hasMedia : bool),
    Globals.isDevMode g1 = Globals.isDevMode g2 ->
    Globals.devConfig g1 = Globals.devConfig g2 ->
    ((hasMedia = true ->
      mediaStartsWith (Globals.currentMedia g1) (js "video")
      = mediaStartsWith (Globals.currentMedia g2) (js "video")) ->
     determineConfig g1 text hasMedia = determineConfig g2 text hasMedia)
    /\ Descriptor.model (determineConfig g1 text hasMedia)
       = Descriptor.model (determineConfig g2 text hasMedia)
    /\ Descriptor.config (determineConfig g1 text hasMedia)
       = Descriptor.config (determineConfig g2 text hasMedia)
    /\ Descriptor.visualState (determineConfig g1 text hasMedia)
       = Descriptor.visualState (determineConfig g2 text hasMedia).
Proof.
  intros g1 g2 text hasMedia Hm Hc.
  split.
  - intros Hv. unfold determineConfig, devOverrides.
    rewrite (selectMode_reads g1 g2 text hasMedia Hm Hc Hv), Hm, Hc.
    reflexivity.
  - unfold determineConfig, devOverrides.
    destruct hasMedia.
    + unfold selectMode. rewrite Hm, Hc.
      destruct (Globals.isDevMode g2); repeat split.
    + assert (E : selectMode g1 text false = selectMode g2 text false)
        by (apply selectMode_reads; congruence).
      rewrite E, Hm, Hc. repeat split.
Qed.

Lemma determineConfig_depends_on_witness :
  let g1 := stagedWith "video/mp4" in
  let g2 := stagedWith "video/webm" in
  determineConfig g1 (js "what is this") true
  = determineConfig g2 (js "what is this") true.
Proof.
  cbv zeta.
  apply (proj1 (@determineConfig_depends_on
                  (stagedWith "video/mp4") (stagedWith "video/webm")
                  (js "what is this") true eq_refl eq_refl)).
  intros _. vm_compute. reflexivity.
Defined.

(** C4. Developer mode on, manual tool selection on, the three tool
    switches off: for the text "search news" without media the descriptor
    attaches no tools and sets no reasoning budget, although the text
    matches the search pattern. *)
Theorem manual_selection_suppresses_detection :
  forall g : Globals.t,
    Globals.isDevMode g = true ->
    DevConfig.forceTools (Globals.devConfig g) = true ->
    Tools.googleSearch (DevConfig.tools (Globals.devConfig g)) = false ->
    Tools.googleMaps (DevConfig.tools (Globals.devConfig g)) = false ->
    Tools.thinking (DevConfig.tools (Globals.devConfig g)) = false ->
    RegExp.test INTENTS.SEARCH (js "search news") = true
    /\ Config.tools
         (Descriptor.config (determineConfig g (js "search news") false)) = None
    /\ Config.thinkingConfig
         (Descriptor.config (determineConfig g (js "search news") false)) = None.
Proof.
  intros g Hdev Hforce Hs Hm Ht.
  split; [vm_compute; reflexivity|].
  unfold determineConfig. rewrite Hdev.
  unfold selectMode, useThinking, useSearch, useMaps.
  rewrite Hdev, Hforce. cbn [andb].
  rewrite Hs, Hm, Ht. cbn [orb].
  split; reflexivity.
Qed.

Lemma manual_selection_suppresses_detection_witness :
  Config.tools
    (Descriptor.config
       (determineConfig (devGlobals manualNoTools None) (js "search news") false))
  = None.
Proof.
  exact (proj1 (proj2
    (manual_selection_suppresses_detection (devGlobals manualNoTools None)
       eq_refl eq_refl eq_refl eq_refl eq_refl))).
Defined.

(** C5. Text "architect a scalable backend system", no media, developer
    mode off: the descriptor names [gemini-3-pro-preview], carries the
    reasoning budget and has no [maxOutputTokens]. *)
Theorem architect_text_selects_reasoning_model :
  forall g : Globals.t,
    Globals.isDevMode g = false ->
    let d := determineConfig g (js "architect a scalable backend system") false in
    Descriptor.model d = js "gemini-3-pro-preview"
    /\ Config.thinkingConfig (Descriptor.config d) = Some 32768%Z
    /\ Config.maxOutputTokens (Descriptor.config d) = None.
Proof.
  intros g Hdev d. subst d.
  unfold determineConfig. rewrite Hdev.
  unfold selectMode, useThinking. rewrite Hdev. cbn [andb].
  replace (RegExp.test INTENTS.THINK (js "architect a scalable backend system"))
    with true by (vm_compute; reflexivity).
  repeat split.
Qed.

Lemma architect_text_selects_reasoning_model_witness :
  Descriptor.model
    (determineConfig Globals.initial
       (js "architect a scalable backend system") false)
  = js "gemini-3-pro-preview".
Proof.
  exact (proj1 (architect_text_selects_reasoning_model Globals.initial eq_refl)).
Defined.

(** C9. When the generation config of a descriptor carries safety
    settings, they are the four harm categories (harassment, hate speech,
    sexually explicit, dangerous content), each with the threshold
    [devConfig.safetyThreshold]. *)
Theorem safety_settings_share_threshold :
  forall (g : Globals.t) (text : jsstring) (hasMedia : bool)
         (settings : list SafetySetting.t),
    Config.safetySettings
      (Descriptor.config (determineConfig g text hasMedia)) = Some settings ->
    let t := DevConfig.safetyThreshold (Globals.devConfig g) in
    settings =
      [ {| SafetySetting.category := js "HARM_CATEGORY_HARASSMENT";
           SafetySetting.threshold := t |};
        {| SafetySetting.category := js "HARM_CATEGORY_HATE_SPEECH";
           SafetySetting.threshold := t |};
        {| SafetySetting.category := js "HARM_CATEGORY_SEXUALLY_EXPLICIT";
           SafetySetting.threshold := t |};
        {| SafetySetting.category := js "HARM_CATEGORY_DANGEROUS_CONTENT";
           SafetySetting.threshold := t |} ].
Proof.
  intros g text hasMedia settings.
  unfold determineConfig.
  case_eq (Globals.isDevMode g); intros Hdev; cbn [Descriptor.config].
  - unfold devOverrides; cbn [Config.safetySettings].
    intros H; injection H as <-. reflexivity.
  - rewrite (proj2 (selectMode_leaves_overrides_unset g text hasMedia)).
    discriminate.
Qed.

Lemma safety_settings_share_threshold_witness :
  option_map (map SafetySetting.threshold)
    (Config.safetySettings
       (Descriptor.config
          (determineConfig (devGlobals manualNoTools None) (js "hello") false)))
  = Some [js "BLOCK_ONLY_HIGH"; js "BLOCK_ONLY_HIGH";
          js "BLOCK_ONLY_HIGH"; js "BLOCK_ONLY_HIGH"].
Proof.
  assert (H := safety_settings_share_threshold
                 (devGlobals manualNoTools None) (js "hello") false).
  destruct (Config.safetySettings _) as [settings|] eqn:E.
  - rewrite (H settings eq_refl). reflexivity.
  - vm_compute in E. discriminate E.
Defined.

(* ------------------------------------------------------------------ *)
(** * Properties of [getContextualActions] *)

(** A non-empty word does not occur in the empty string. *)
Lemma includes_nil (c : N) (p : jsstring) :
  JsString.includes [] (c :: p) = false.
Proof. reflexivity. Qed.

Lemma includes_nonempty (s p : jsstring) :
  p <> [] -> JsString.includes s p = true -> (0 <? List.length s)%nat = true.
Proof.
  intros Hp Hs. destruct s as [|c s].
  - destruct p as [|a p]; [congruence|].
    rewrite includes_nil in Hs. discriminate.
  - reflexivity.
Qed.

(** C10. [getContextualActions] returns between one and four actions, for
    every text, media flag, role of the last message and module state. *)
Theorem suggestions_between_one_and_four :
  forall (g : Globals.t) (text : jsstring) (hasMedia : bool)
         (lastMsgRole : option Role),
    (1 <= List.length (getContextualActions g text hasMedia lastMsgRole) <= 4)%nat.
Proof.
  intros g text hasMedia lastMsgRole.
  unfold getContextualActions.
  destruct hasMedia.
  - unfold mediaActions.
    destruct (mediaStartsWith _ _); cbn -[Action.make]; lia.
  - destruct (0 <? List.length text)%nat.
    + unfold textActions.
      destruct (_ || _ || _); [cbn -[Action.make]; lia|].
      destruct (RegExp.test INTENTS.SEARCH text); [cbn -[Action.make]; lia|].
      destruct (RegExp.test INTENTS.THINK text); cbn -[Action.make]; lia.
    + unfold followUpActions.
      destruct (isModel lastMsgRole && _); [|cbn -[Action.make]; lia].
      destruct (JsString.includes _ _); [cbn -[Action.make]; lia|].
      destruct (500 <? _)%nat; cbn -[Action.make]; lia.
Qed.

(** C7, as stated, fails.  The text made of a code fence alone is not
    empty and holds the fence, yet it gets no "Fix Bugs" suggestion; and
    with an image staged, an empty text after a model reply that holds a
    fence gets no "Refactor" suggestion. *)
Lemma fence_in_text_gets_no_fix_bugs :
  let fence := js "```" in
  let g := fencedReplyWithImage in
  (0 <? List.length fence)%nat = true
  /\ JsString.includes fence fence = true
  /\ hasLabel "Fix Bugs"
       (getContextualActions Globals.initial fence false None) = false
  /\ JsString.includes (Globals.lastResponseContent g) fence = true
  /\ hasLabel "Refactor"
       (getContextualActions g (js "") (hasMediaOf g) (Some model)) = false.
Proof. vm_compute. repeat split. Qed.

(** C7, amended.  With no media staged: a text that holds [code],
    [function] or [const ] gets a "Fix Bugs" suggestion; and an empty text,
    when the last message is a model turn and [lastResponseContent] holds
    a code fence, gets a "Refactor" suggestion. *)
Theorem code_words_and_fenced_reply_suggestions :
  forall (g : Globals.t) (text : jsstring) (lastMsgRole : option Role),
    (JsString.includes text (js "code") = true
     \/ JsString.includes text (js "function") = true
     \/ JsString.includes text (js "const ") = true ->
     hasLabel "Fix Bugs" (getContextualActions g text false lastMsgRole) = true)
    /\ (JsString.includes (Globals.lastResponseContent g) (js "```") = true ->
        hasLabel "Refactor"
          (getContextualActions g (js "") false (Some model)) = true).
Proof.
  intros g text lastMsgRole. split.
  - intros H. unfold getContextualActions.
    assert (Hlen : (0 <? List.length text)%nat = true).
    { destruct H as [H|[H|H]];
        (eapply includes_nonempty; [|exact H]); discriminate. }
    rewrite Hlen. unfold textActions.
    assert (Hc : JsString.includes text (js "code")
                 || JsString.includes text (js "function")
                 || JsString.includes text (js "const ") = true).
    { destruct H as [H|[H|H]]; rewrite H;
        rewrite ?orb_true_r, ?orb_true_l; reflexivity. }
    rewrite Hc. vm_compute. reflexivity.
  - intros H. unfold getContextualActions.
    change (0 <? List.length (js ""))%nat with false. cbv iota.
    unfold followUpActions. cbn [isModel andb].
    assert (Ht : JsString.truthy (Globals.lastResponseContent g) = true).
    { destruct (Globals.lastResponseContent g); [discriminate H|reflexivity]. }
    rewrite Ht, H. vm_compute. reflexivity.
Qed.

Lemma code_words_and_fenced_reply_suggestions_witness :
  hasLabel "Fix Bugs"
    (getContextualActions Globals.initial (js "fix my function") false None) = true
  /\ hasLabel "Refactor"
       (getContextualActions
          (setLastResponseContent (js "```js let x = 1; ```") Globals.initial)
          (js "") false (Some model)) = true.
Proof.
  split.
  - apply (proj1 (code_words_and_fenced_reply_suggestions
                    Globals.initial (js "fix my function") None)).
    right; left. vm_compute. reflexivity.
  - apply (proj2 (code_words_and_fenced_reply_suggestions
                    (setLastResponseContent (js "```js let x = 1; ```")
                       Globals.initial)
                    (js "") None)).
    vm_compute. reflexivity.
Defined.

(* ------------------------------------------------------------------ *)
(** * Properties of [renderGroundingSources] *)

Lemma get_not_nullish (v : JsValue.t) (k : jsstring) :
  isNullish v = false -> JsValue.get v k = Ok (prop k v).
Proof.
  unfold prop. destruct v; cbn; intros H; try reflexivity; discriminate H.
Qed.

Lemma truthy_not_nullish (v : JsValue.t) :
  JsValue.truthy v = true -> isNullish v = false.
Proof. destruct v; cbn; intros H; try reflexivity; discriminate H. Qed.

(** Over chunks that are neither [undefined] nor [null], [filter] followed
    by [map] picks the truthy members in order. *)
Lemma sourcesBy_ok (k : jsstring) (chunks : list JsValue.t) :
  Forall (fun c => isNullish c = false) chunks ->
  sourcesBy k chunks = Ok (filter JsValue.truthy (map (prop k) chunks)).
Proof.
  unfold sourcesBy.
  induction 1 as [|c chunks Hc _ IH]; [reflexivity|].
  cbn [filterR map filter].
  rewrite (get_not_nullish c k Hc). cbn [ResultMonad.bind].
  destruct (filterR _ chunks) as [kept|e]; cbn [ResultMonad.bind] in *.
  - destruct (JsValue.truthy (prop k c)).
    + cbn [mapR]. rewrite (get_not_nullish c k Hc). cbn [ResultMonad.bind].
      rewrite IH. reflexivity.
    + exact IH.
  - discriminate IH.
Qed.

Lemma sourceCard_ok (s : JsValue.t) :
  JsValue.truthy s = true -> sourceCard s = Ok (cardOf s).
Proof.
  intros H. apply truthy_not_nullish in H.
  unfold sourceCard, cardOf.
  rewrite !(get_not_nullish s _ H). reflexivity.
Qed.

(** [forEach] with [appendChild] adds the cards after what the grid holds,
    one per source and in their order. *)
Lemma appendCards_ok (sources : list JsValue.t) :
  Forall (fun s => JsValue.truthy s = true) sources ->
  forall grid,
    appendCards sources grid
    = (Ok (grid ++ map cardOf sources), grid ++ map cardOf sources).
Proof.
  induction 1 as [|s sources Hs _ IH]; intros grid; cbn [appendCards map].
  - rewrite app_nil_r. reflexivity.
  - rewrite (sourceCard_ok s Hs), IH, <- app_assoc. reflexivity.
Qed.

Lemma sourcesOfChunks_truthy (chunks : list JsValue.t) :
  Forall (fun s => JsValue.truthy s = true) (sourcesOfChunks chunks).
Proof.
  unfold sourcesOfChunks. apply Forall_app; split;
    apply Forall_forall; intros s Hs; apply filter_In in Hs; tauto.
Qed.

(** What a call renders when the chunks can be read. *)
Lemma renderGroundingSources_cards metadata container chunks :
  container <> Some NoGrid ->
  groundingChunks metadata = Ok chunks ->
  Forall (fun c => isNullish c = false) chunks ->
  renderGroundingSources metadata container
  = (Ok tt, Some (Grid (map cardOf (sourcesOfChunks chunks)))).
Proof.
  intros Hc Hg Hn. unfold renderGroundingSources.
  rewrite Hg. cbn [ResultMonad.bind].
  rewrite !(sourcesBy_ok _ chunks Hn). cbn [ResultMonad.bind].
  fold (sourcesOfChunks chunks).
  rewrite (appendCards_ok (sourcesOfChunks chunks) (sourcesOfChunks_truthy chunks)).
  destruct container as [[|children]|]; [congruence|reflexivity..].
Qed.

(** C6, as stated, fails: metadata that cites the same web page twice is
    rendered as two equal cards. *)
Lemma repeated_source_rendered_twice :
  exists card,
    renderGroundingSources repeatedMetadata None
    = (Ok tt, Some (Grid [card; card]))
    /\ ~ NoDup (renderedCards (snd (renderGroundingSources repeatedMetadata None))).
Proof.
  eexists. split.
  - vm_compute. reflexivity.
  - intros H. vm_compute in H. inversion H as [|x l Hin _]; subst.
    apply Hin. left. reflexivity.
Qed.

(** C6, amended.  When the container has a grid (or no sources container
    yet) and the chunks are an array without [undefined] or [null], the
    grid ends up with one card per truthy [web] member, in the order of the
    chunks, followed by one card per truthy [maps] member, in the order of
    the chunks; each card links to the [uri] of its source and is titled
    with its [title], or its [uri] when the title is missing.  Nothing is
    removed: a source cited n times gets n cards. *)
Theorem grounding_cards_follow_chunks :
  forall (metadata : JsValue.t) (container : option SourcesContainer)
         (chunks : list JsValue.t),
    container <> Some NoGrid ->
    groundingChunks metadata = Ok chunks ->
    Forall (fun c => isNullish c = false) chunks ->
    exists cards,
      renderGroundingSources metadata container = (Ok tt, Some (Grid cards))
      /\ map Card.href cards
         = map (prop (js "uri")) (sourcesOfChunks chunks)
      /\ map Card.title cards
         = map (fun s => JsValue.or (prop (js "title") s) (prop (js "uri") s))
             (sourcesOfChunks chunks)
      /\ List.length cards
         = (List.length (filter JsValue.truthy (map (prop (js "web")) chunks))
            + List.length (filter JsValue.truthy (map (prop (js "maps")) chunks)))%nat.
Proof.
  intros metadata container chunks Hc Hg Hn.
  exists (map cardOf (sourcesOfChunks chunks)).
  split; [now apply renderGroundingSources_cards|].
  rewrite !map_map, length_map. repeat split.
  unfold sourcesOfChunks. apply length_app.
Qed.

Lemma grounding_cards_follow_chunks_witness :
  exists cards,
    renderGroundingSources mixedMetadata None = (Ok tt, Some (Grid cards))
    /\ map Card.href cards
       = [JsValue.String (js "https://a.example/");
          JsValue.String (js "https://maps.example/p")].
Proof.
  destruct (grounding_cards_follow_chunks mixedMetadata None
              [mapsChunk "https://maps.example/p" "Cafe";
               webChunk "https://a.example/" "A"])
    as [cards [Hr [Hh _]]].
  - discriminate.
  - reflexivity.
  - repeat constructor.
  - exists cards. split; [exact Hr|]. rewrite Hh. reflexivity.
Defined.

(** The icon is chosen by the [maps] member of the source object itself, so
    the card of a place cited as the backend sends it has the web icon. *)
Lemma place_source_gets_public_icon :
  map Card.icon (renderedCards (snd (renderGroundingSources mixedMetadata None)))
  = [js "public"; js "public"].
Proof. vm_compute. reflexivity. Qed.

(** A call leaves a container that holds a grid, unless it found a sources
    container without one. *)
Lemma renderGroundingSources_keeps_grid metadata container :
  container <> Some NoGrid ->
  exists children,
    snd (renderGroundingSources metadata container) = Some (Grid children).
Proof.
  intros Hc. unfold renderGroundingSources.
  destruct container as [[|children]|]; [congruence| |];
    (destruct (ResultMonad.bind _ _) as [sources|e];
     [destruct (appendCards sources []) as [[?|?] grid]|]);
    eexists; reflexivity.
Qed.

(** A call that returns did not read what the grid held before. *)
Lemma renderGroundingSources_replaces metadata children :
  fst (renderGroundingSources metadata (Some (Grid children))) = Ok tt ->
  renderGroundingSources metadata (Some (Grid children))
  = renderGroundingSources metadata None.
Proof.
  unfold renderGroundingSources.
  destruct (ResultMonad.bind _ _) as [sources|e]; [reflexivity|].
  cbn [fst]. discriminate.
Qed.

(** C8. A second call of [renderGroundingSources] with the same metadata
    changes nothing: result and container are those of the first call.  And
    a call that returns replaces what the grid held: after any earlier
    call, with whatever metadata, the container is the one a first call on
    a fresh content element gives. *)
Theorem renderGroundingSources_idempotent :
  forall (metadata : JsValue.t) (container : option SourcesContainer),
    renderGroundingSources metadata
      (snd (renderGroundingSources metadata container))
    = renderGroundingSources metadata container
    /\ (forall earlier : JsValue.t,
          container <> Some NoGrid ->
          fst (renderGroundingSources metadata
                 (snd (renderGroundingSources earlier container))) = Ok tt ->
          renderGroundingSources metadata
            (snd (renderGroundingSources earlier container))
          = renderGroundingSources metadata None).
Proof.
  intros metadata container. split.
  - unfold renderGroundingSources at 2 3.
    destruct container as [[|children]|]; [reflexivity| |].
    + case_eq (chunks <-! groundingChunks metadata ;;
               webSources <-! sourcesBy (js "web") chunks ;;
               mapSources <-! sourcesBy (js "maps") chunks ;;
               Ok (webSources ++ mapSources)).
      * intros sources Hs.
        destruct (appendCards sources []) as [[cards|e] grid] eqn:Ha;
          cbn [snd]; unfold renderGroundingSources; rewrite Hs, Ha; reflexivity.
      * intros e Hs. cbn [snd].
        unfold renderGroundingSources. rewrite Hs. reflexivity.
    + case_eq (chunks <-! groundingChunks metadata ;;
               webSources <-! sourcesBy (js "web") chunks ;;
               mapSources <-! sourcesBy (js "maps") chunks ;;
               Ok (webSources ++ mapSources)).
      * intros sources Hs.
        destruct (appendCards sources []) as [[cards|e] grid] eqn:Ha;
          cbn [snd]; unfold renderGroundingSources; rewrite Hs, Ha; reflexivity.
      * intros e Hs. cbn [snd].
        unfold renderGroundingSources. rewrite Hs. reflexivity.
  - intros earlier Hc.
    destruct (renderGroundingSources_keeps_grid earlier container Hc)
      as [children ->].
    apply renderGroundingSources_replaces.
Qed.

Lemma renderGroundingSources_idempotent_witness :
  renderGroundingSources mixedMetadata
    (snd (renderGroundingSources repeatedMetadata None))
  = renderGroundingSources mixedMetadata None.
Proof.
  apply (proj2 (renderGroundingSources_idempotent mixedMetadata None)
           repeatedMetadata).
  - discriminate.
  - vm_compute. reflexivity.
Defined.

(* ------------------------------------------------------------------ *)
(** * Properties of [handleSend] *)

Lemma sameButSources_refl w : sameButSources w w.
Proof. repeat split. Qed.

Lemma sameButSources_trans w1 w2 w3 :
  sameButSources w1 w2 -> sameButSources w2 w3 -> sameButSources w1 w3.
Proof.
  unfold sameButSources. intros (A1 & A2 & A3 & A4) (B1 & B2 & B3 & B4).
  repeat split; congruence.
Qed.

Lemma renderSources_frame metadata w :
  sameButSources w (snd (renderSources metadata w)).
Proof.
  unfold renderSources.
  destruct (renderGroundingSources metadata (World.sources w)) as [r c].
  destruct r; repeat split.
Qed.

(** The loop over the fragments touches the content element only. *)
Lemma consume_frame env chunks :
  forall full w, sameButSources w (snd (consume env chunks full w)).
Proof.
  induction chunks as [|chunk rest IH]; intros full w; cbn [consume].
  - apply sameButSources_refl.
  - unfold M.bind at 1, M.lift at 1.
    destruct (Env.markedParse env _) as [parsed|e]; [|apply sameButSources_refl].
    unfold M.bind at 1. cbn [M.setSources].
    set (w1 := {| World.globals := World.globals w;
                  World.storedHistory := World.storedHistory w;
                  World.inputValue := World.inputValue w;
                  World.sources := parsed;
                  World.trace := World.trace w |}).
    assert (H1 : sameButSources w w1) by (repeat split).
    unfold M.bind at 1.
    destruct (JsValue.truthy (Chunk.groundingMetadata chunk)).
    + pose proof (renderSources_frame (Chunk.groundingMetadata chunk) w1) as H2.
      destruct (renderSources (Chunk.groundingMetadata chunk) w1) as [[[]|e] w2];
        cbn [snd] in H2 |- *.
      * eapply sameButSources_trans; [|apply IH].
        exact (sameButSources_trans _ _ _ H1 H2).
      * exact (sameButSources_trans _ _ _ H1 H2).
    + unfold M.ret. eapply sameButSources_trans; [exact H1|apply IH].
Qed.

(** [saveMessage] pushes the message, issues the write, and returns. *)
Lemma saveMessage_run env msg w :
  let h := Globals.localHistory (World.globals w) ++ [msg] in
  saveMessage env msg w
  = (Ok tt,
     {| World.globals := pushHistory msg (World.globals w);
        World.storedHistory :=
          if Env.setItemThrows env h then World.storedHistory w else Some h;
        World.inputValue := World.inputValue w;
        World.sources := World.sources w;
        World.trace :=
          World.trace w ++ [SetItemHistory h (negb (Env.setItemThrows env h))] |}).
Proof.
  unfold saveMessage, M.bind, M.modifyGlobals, M.getGlobals, M.emit,
    M.setStoredHistory.
  cbn. destruct (Env.setItemThrows env _); reflexivity.
Qed.

(** The [try] block either throws, having issued [chats.create] and at
    most one [sendMessageStream] and having left history and storage as
    they were, or it returns, having saved the model turn. *)
Lemma exchange_cases env d parts w :
  let cc := ChatsCreate (Descriptor.model d)
              (map toContent (Globals.localHistory (World.globals w)))
              (Descriptor.config d) in
  let sm := SendMessageStream (payloadOf parts) in
  let r := exchange env d parts w in
  (exists e,
      fst r = Throw e
      /\ World.globals (snd r) = World.globals w
      /\ World.storedHistory (snd r) = World.storedHistory w
      /\ (World.trace (snd r) = World.trace w ++ [cc]
          \/ World.trace (snd r) = World.trace w ++ [cc; sm]))
  \/ (exists full,
        let h := Globals.localHistory (World.globals w) ++ [modelMessage env d full] in
        fst r = Ok tt
        /\ Globals.localHistory (World.globals (snd r)) = h
        /\ World.trace (snd r)
           = World.trace w
             ++ [cc; sm; SetItemHistory h (negb (Env.setItemThrows env h))]).
Proof.
  intros cc sm r. subst r.
  destruct (exchange env d parts w) as [r w'] eqn:E. cbn [fst snd].
  unfold exchange, chatsCreate, sendMessageStream in E.
  unfold M.bind, M.getGlobals, M.emit, M.lift, M.throw, M.ret in E.
  cbn [World.globals World.storedHistory World.inputValue World.sources
       World.trace] in E.
  destruct (Env.createThrows env) as [e|].
  { injection E as <- <-. left. exists e. cbn. auto. }
  cbn [World.globals World.storedHistory World.inputValue World.sources
       World.trace] in E.
  destruct (Env.stream env) as [[chunks failure]|e]; cbn [fst snd] in E.
  2:{ injection E as <- <-. left. exists e. cbn. rewrite <- app_assoc. auto. }
  match type of E with
  | context [consume env chunks ?t ?w2] =>
      pose proof (consume_frame env chunks t w2) as (Fg & Fs & _ & Ft);
      destruct (consume env chunks t w2) as [[full|e] w3]
  end; cbn [snd World.globals World.storedHistory World.trace] in Fg, Fs, Ft.
  2:{ injection E as <- <-. left. exists e.
      rewrite Fg, Fs, Ft, <- app_assoc. auto. }
  destruct failure as [e|].
  { injection E as <- <-. left. exists e.
    rewrite Fg, Fs, Ft, <- app_assoc. auto. }
  unfold M.modifyGlobals in E. rewrite saveMessage_run in E.
  injection E as <- <-. right. exists full.
  cbn. rewrite Fg, Ft. repeat split. rewrite <- !app_assoc. reflexivity.
Qed.

(** A send that proceeds runs the [try] block in [afterUserTurn]. *)
Lemma handleSend_run env w :
  let g := World.globals w in
  let text := JsString.trim (World.inputValue w) in
  JsString.truthy text = true \/ hasMediaOf g = true ->
  handleSend env w
  = M.tryCatch
      (exchange env (determineConfig (setAppState chatting g) text (hasMediaOf g))
         (userParts text (Globals.currentMedia g)))
      (fun e => M.emit (ConsoleError e))
      (afterUserTurn env w).
Proof.
  intros g text Hsend.
  unfold handleSend.
  unfold M.bind at 1, M.getInputValue. unfold M.bind at 1, M.getGlobals at 1.
  fold g. fold text.
  assert (Hguard : negb (JsString.truthy text) && negb (hasMediaOf g) = false).
  { destruct Hsend as [-> | ->]; [reflexivity|apply andb_false_r]. }
  rewrite Hguard.
  unfold M.bind, M.modifyGlobals, M.getGlobals, M.setInputValue, M.setSources.
  cbn [World.globals World.storedHistory World.inputValue World.sources
       World.trace].
  rewrite saveMessage_run.
  reflexivity.
Qed.

(** C3. A send that proceeds (trimmed text or staged attachment present)
    first pushes the user turn and issues the write of the history that
    holds it; every backend call of the run comes after that write, and
    [chats.create] is handed the history with the user turn in it.  The run
    issues at most one [chats.create] and at most one [sendMessageStream].
    When the [catch] block runs, the history is the old one followed by the
    user turn alone, no further write was issued, and local storage holds
    what the first write left. *)
Theorem handleSend_keeps_user_turn :
  forall (env : Env.t) (w : World.t),
    let g := World.globals w in
    let text := JsString.trim (World.inputValue w) in
    JsString.truthy text = true \/ hasMediaOf g = true ->
    let h := Globals.localHistory g
             ++ [userMessage env text (Globals.currentMedia g)] in
    let w' := snd (handleSend env w) in
    exists calls : list Event,
      World.trace w'
      = World.trace w
        ++ SetItemHistory h (negb (Env.setItemThrows env h)) :: calls
      /\ (forall m history c,
             In (ChatsCreate m history c) calls -> history = map toContent h)
      /\ (List.length (filter isChatsCreate calls) <= 1)%nat
      /\ (List.length (filter isSendMessageStream calls) <= 1)%nat
      /\ (forall e,
             In (ConsoleError e) calls ->
             Globals.localHistory (World.globals w') = h
             /\ filter isSetItem calls = []
             /\ World.storedHistory w'
                = if Env.setItemThrows env h
                  then World.storedHistory w else Some h).
Proof.
  intros env w g text Hsend h w'. subst w'.
  rewrite (handleSend_run env w Hsend). fold g text.
  unfold M.tryCatch.
  set (d := determineConfig (setAppState chatting g) text (hasMediaOf g)).
  set (parts := userParts text (Globals.currentMedia g)).
  destruct (exchange_cases env d parts (afterUserTurn env w))
    as [(e & Hr & Hg & Hs & Ht) | (full & Hr & Hh & Ht)];
    destruct (exchange env d parts (afterUserTurn env w)) as [r w1];
    cbn [fst snd] in *; subst r.
  - cbn [M.emit snd World.trace World.globals World.storedHistory].
    rewrite Hg, Hs.
    change (Globals.localHistory (World.globals (afterUserTurn env w))) with h in Ht.
    change (World.trace (afterUserTurn env w))
      with (World.trace w ++ [SetItemHistory h (negb (Env.setItemThrows env h))])
      in Ht.
    destruct Ht as [Ht | Ht]; rewrite Ht; rewrite <- !app_assoc; cbn [app];
      eexists; (split; [reflexivity|]); cbn [filter isChatsCreate
        isSendMessageStream isSetItem List.length];
      (repeat split; try lia; try reflexivity);
      intros; in_cases; congruence.
  - change (Globals.localHistory (World.globals (afterUserTurn env w))) with h in *.
    change (World.trace (afterUserTurn env w))
      with (World.trace w ++ [SetItemHistory h (negb (Env.setItemThrows env h))])
      in Ht.
    cbn [snd]. rewrite Ht, <- !app_assoc; cbn [app].
    eexists; (split; [reflexivity|]); cbn [filter isChatsCreate
        isSendMessageStream isSetItem List.length].
    repeat split; try lia; intros; in_cases; congruence.
Qed.

Lemma handleSend_keeps_user_turn_witness :
  Globals.localHistory (World.globals (snd (handleSend brokenStream typedWorld)))
  = [userMessage brokenStream (js "plan a trip") None].
Proof.
  destruct (handleSend_keeps_user_turn brokenStream typedWorld (or_introl eq_refl))
    as (calls & Ht & _ & _ & _ & Hfail).
  apply (Hfail (Failure (js "network error"))).
  vm_compute in Ht. injection Ht as <-.
  right; right; left. reflexivity.
Defined.

(** The failures of the backend make the [try] block throw: [chats.create]
    throwing, [sendMessageStream] rejecting, the stream breaking. *)
Lemma exchange_throws_on_failure env d parts w :
  Env.createThrows env <> None
  \/ (exists e, Env.stream env = Throw e)
  \/ (exists chunks e, Env.stream env = Ok (chunks, Some e)) ->
  exists e, fst (exchange env d parts w) = Throw e.
Proof.
  intros H.
  unfold exchange, chatsCreate, sendMessageStream.
  unfold M.bind, M.getGlobals, M.emit, M.lift, M.throw, M.ret.
  destruct (Env.createThrows env) as [e|]; [exists e; reflexivity|].
  destruct H as [H | [(e & ->) | (chunks & e & ->)]];
    [congruence | exists e; reflexivity |].
  cbn [fst snd].
  match goal with
  | |- context [consume env chunks ?t ?w2] =>
      destruct (consume env chunks t w2) as [[full|e'] w3]
  end; [exists e | exists e']; reflexivity.
Qed.

(** Such a failure reaches the [catch] block: the run ends with
    [console.error], after the write of the user turn. *)
Lemma handleSend_failure_reported env w :
  let g := World.globals w in
  let text := JsString.trim (World.inputValue w) in
  JsString.truthy text = true \/ hasMediaOf g = true ->
  Env.createThrows env <> None
  \/ (exists e, Env.stream env = Throw e)
  \/ (exists chunks e, Env.stream env = Ok (chunks, Some e)) ->
  let h := Globals.localHistory g
           ++ [userMessage env text (Globals.currentMedia g)] in
  exists e calls,
    World.trace (snd (handleSend env w))
    = World.trace w
      ++ SetItemHistory h (negb (Env.setItemThrows env h))
         :: calls ++ [ConsoleError e].
Proof.
  intros g text Hsend Hfail h.
  rewrite (handleSend_run env w Hsend). fold g text.
  unfold M.tryCatch.
  set (d := determineConfig (setAppState chatting g) text (hasMediaOf g)).
  set (parts := userParts text (Globals.currentMedia g)).
  destruct (exchange_throws_on_failure env d parts (afterUserTurn env w) Hfail)
    as [e He].
  destruct (exchange_cases env d parts (afterUserTurn env w))
    as [(e' & Hr & _ & _ & Ht) | (full & Hr & _)]; [|congruence].
  destruct (exchange env d parts (afterUserTurn env w)) as [r w1].
  cbn [fst snd] in *. subst r. injection Hr as <-.
  exists e. cbn [M.emit snd World.trace].
  change (World.trace (afterUserTurn env w))
    with (World.trace w ++ [SetItemHistory h (negb (Env.setItemThrows env h))])
    in Ht.
  destruct Ht as [-> | ->]; rewrite <- !app_assoc; cbn [app].
  - exists [ChatsCreate (Descriptor.model d) (map toContent h) (Descriptor.config d)].
    reflexivity.
  - exists [ChatsCreate (Descriptor.model d) (map toContent h) (Descriptor.config d);
            SendMessageStream (payloadOf parts)].
    reflexivity.
Qed.

(** When the backend answers and the stream ends, the model turn follows
    the user turn in the history. *)
Lemma handleSend_completed env w chunks :
  let g := World.globals w in
  let text := JsString.trim (World.inputValue w) in
  JsString.truthy text = true \/ hasMediaOf g = true ->
  Env.createThrows env = None ->
  Env.stream env = Ok (chunks, None) ->
  (forall s, exists c, Env.markedParse env s = Ok c) ->
  Forall (fun c => JsValue.truthy (Chunk.groundingMetadata c) = false) chunks ->
  exists full,
    Globals.localHistory (World.globals (snd (handleSend env w)))
    = Globals.localHistory g
      ++ [userMessage env text (Globals.currentMedia g);
          modelMessage env
            (determineConfig (setAppState chatting g) text (hasMediaOf g)) full].
Proof.
  intros g text Hsend Hcreate Hstream Hparse Hplain.
  rewrite (handleSend_run env w Hsend). fold g text.
  unfold M.tryCatch.
  set (d := determineConfig (setAppState chatting g) text (hasMediaOf g)).
  set (parts := userParts text (Globals.currentMedia g)).
  assert (Hok : forall full w0, exists full', fst (consume env chunks full w0) = Ok full').
  { clear Hstream.
    induction Hplain as [|chunk rest Hc _ IH]; intros full w0; cbn [consume].
    - exists full. reflexivity.
    - unfold M.bind at 1, M.lift at 1.
      destruct (Hparse (JsString.concat full
                          match Chunk.text chunk with
                          | Some s => s
                          | None => js "undefined"
                          end)) as [c ->].
      rewrite Hc. unfold M.bind, M.setSources, M.ret. apply IH. }
  destruct (exchange_cases env d parts (afterUserTurn env w))
    as [(e & Hr & _) | (full & Hr & Hh & _)].
  - exfalso. revert Hr.
    unfold exchange, chatsCreate, sendMessageStream.
    unfold M.bind, M.getGlobals, M.emit, M.lift, M.throw, M.ret.
    rewrite Hcreate, Hstream. cbn [fst snd].
    match goal with
    | |- context [consume env chunks ?t ?w2] =>
        destruct (Hok t w2) as [full Hfull];
        destruct (consume env chunks t w2) as [[full'|e'] w3];
        [|discriminate Hfull]
    end.
    unfold M.modifyGlobals. rewrite saveMessage_run. discriminate.
  - exists full. destruct (exchange env d parts (afterUserTurn env w)) as [r w1].
    cbn [fst snd] in *. subst r. cbn [snd]. rewrite Hh.
    cbn. rewrite <- app_assoc. reflexivity.
Qed.

(* ------------------------------------------------------------------ *)
(** * Further properties of [determineConfig] *)

(** The text reaches the descriptor through the two patterns only. *)
Lemma determineConfig_text_reads g t1 t2 hasMedia :
  RegExp.test INTENTS.SEARCH t1 = RegExp.test INTENTS.SEARCH t2 ->
  RegExp.test INTENTS.THINK t1 = RegExp.test INTENTS.THINK t2 ->
  determineConfig g t1 hasMedia = determineConfig g t2 hasMedia.
Proof.
  intros Hs Ht.
  unfold determineConfig, selectMode, useThinking, useSearch.
  rewrite Hs, Ht. reflexivity.
Qed.

(** The media branch. *)
Lemma determineConfig_media g text :
  Descriptor.model (determineConfig g text true) = js "gemini-3-pro-preview"
  /\ Config.thinkingConfig (Descriptor.config (determineConfig g text true)) = None
  /\ Config.tools (Descriptor.config (determineConfig g text true)) = None.
Proof.
  unfold determineConfig. destruct (Globals.isDevMode g); repeat split.
Qed.

(** X1. With an attachment the text plays no part: two texts give the same
    descriptor, which names [gemini-3-pro-preview] and carries neither a
    reasoning budget nor tools, whatever the developer configuration
    forces. *)
Theorem media_overrides_text :
  forall (g : Globals.t) (text text' : jsstring),
    determineConfig g text true = determineConfig g text' true
    /\ Descriptor.model (determineConfig g text true) = js "gemini-3-pro-preview"
    /\ Config.thinkingConfig (Descriptor.config (determineConfig g text true)) = None
    /\ Config.tools (Descriptor.config (determineConfig g text true)) = None.
Proof.
  intros g text text'. split; [|apply determineConfig_media].
  unfold determineConfig.
  change (selectMode g text true) with (selectMode g text' true).
  reflexivity.
Qed.

(** X2. A descriptor never carries both a reasoning budget and tools.  A
    budget is 32768 and comes with [gemini-3-pro-preview]; a tool list is
    not empty, names no tool twice and comes with
    [gemini-3-flash-preview]. *)
Theorem budget_and_tools_exclude_each_other :
  forall (g : Globals.t) (text : jsstring) (hasMedia : bool),
    let d := determineConfig g text hasMedia in
    (forall budget,
        Config.thinkingConfig (Descriptor.config d) = Some budget ->
        budget = 32768%Z
        /\ Config.tools (Descriptor.config d) = None
        /\ Descriptor.model d = js "gemini-3-pro-preview")
    /\ (forall tools,
           Config.tools (Descriptor.config d) = Some tools ->
           tools <> []
           /\ NoDup tools
           /\ Config.thinkingConfig (Descriptor.config d) = None
           /\ Descriptor.model d = js "gemini-3-flash-preview").
Proof.
  intros g text hasMedia d. subst d.
  unfold determineConfig, selectMode.
  destruct hasMedia;
    [destruct (Globals.isDevMode g); split; intros ? H; discriminate H|].
  destruct (useThinking g text).
  { destruct (Globals.isDevMode g); split; intros ? H;
      try discriminate H; injection H as <-; repeat split. }
  case_eq (useSearch g text); intros Hs; cbn [orb].
  { destruct (useMaps g), (Globals.isDevMode g); split; intros ? H;
      try discriminate H; injection H as <-; repeat split;
      try discriminate; repeat constructor; cbn; intuition discriminate. }
  case_eq (useMaps g); intros Hm.
  { destruct (Globals.isDevMode g); split; intros ? H;
      try discriminate H; injection H as <-; repeat split;
      try discriminate; repeat constructor; cbn; intuition discriminate. }
  destruct (Globals.isDevMode g); split; intros ? H; discriminate H.
Qed.

Lemma budget_and_tools_exclude_each_other_witness :
  Descriptor.model
    (determineConfig Globals.initial (js "latest stock price") false)
  = js "gemini-3-flash-preview".
Proof.
  apply (proj2 (budget_and_tools_exclude_each_other
                  Globals.initial (js "latest stock price") false)
           [googleSearchTool]).
  vm_compute. reflexivity.
Defined.

(** The tool list of a descriptor, read back from its flags. *)
Lemma descriptor_tools g text hasMedia tools :
  Config.tools (Descriptor.config (determineConfig g text hasMedia)) = Some tools ->
  hasMedia = false
  /\ useThinking g text = false
  /\ tools = (if useSearch g text then [googleSearchTool] else [])
             ++ (if useMaps g then [googleMapsTool] else []).
Proof.
  unfold determineConfig, selectMode.
  destruct hasMedia;
    [destruct (Globals.isDevMode g); intros H; discriminate H|].
  destruct (useThinking g text);
    [destruct (Globals.isDevMode g); intros H; discriminate H|].
  destruct (useSearch g text || useMaps g);
    destruct (Globals.isDevMode g); intros H; try discriminate H;
    injection H as <-; repeat split.
Qed.

(** X3. The maps tool is attached only by manual selection: developer
    mode on, [forceTools] on and the maps switch on.  The search tool is
    attached by its switch under manual selection, and by the search
    pattern otherwise. *)
Theorem maps_tool_only_by_manual_selection :
  forall (g : Globals.t) (text : jsstring) (hasMedia : bool) (tools : list Tool),
    Config.tools (Descriptor.config (determineConfig g text hasMedia)) = Some tools ->
    (In googleMapsTool tools ->
     manualSelection g = true
     /\ Tools.googleMaps (DevConfig.tools (Globals.devConfig g)) = true)
    /\ (In googleSearchTool tools ->
        if manualSelection g
        then Tools.googleSearch (DevConfig.tools (Globals.devConfig g)) = true
        else RegExp.test INTENTS.SEARCH text = true).
Proof.
  intros g text hasMedia tools H.
  destruct (descriptor_tools g text hasMedia tools H) as (_ & _ & ->).
  unfold useSearch, useMaps, manualSelection.
  destruct (Globals.isDevMode g && DevConfig.forceTools (Globals.devConfig g)).
  - destruct (Tools.googleSearch _), (Tools.googleMaps _); cbn;
      split; intros Hin; intuition discriminate.
  - destruct (RegExp.test INTENTS.SEARCH text); cbn;
      split; intros Hin; intuition discriminate.
Qed.

Lemma maps_tool_only_by_manual_selection_witness :
  manualSelection
    (devGlobals
       {| DevConfig.systemInstruction := js "";
          DevConfig.temperature := 1.0%float;
          DevConfig.topP := 0.5%float;
          DevConfig.maxOutputTokens := 2048%float;
          DevConfig.model := js "gemini-2.5-flash-lite";
          DevConfig.safetyThreshold := js "BLOCK_NONE";
          DevConfig.tools := {| Tools.googleSearch := false;
                                Tools.googleMaps := true;
                                Tools.thinking := false |};
          DevConfig.forceTools := true |} None) = true.
Proof.
  refine (proj1 (proj1 (maps_tool_only_by_manual_selection _ (js "cafes nearby")
                   false [googleMapsTool] _) _)).
  - vm_compute. reflexivity.
  - left. reflexivity.
Defined.

(** X4. The generation parameters follow developer mode.  Off: the config
    holds no persona, temperature, top-p, token cap or safety settings, and
    the label has no suffix.  On: temperature and top-p are those of the
    developer configuration, the label ends in " (Dev)", and the token cap
    is left out exactly when a reasoning budget is set. *)
Theorem overlay_follows_developer_mode :
  forall (g : Globals.t) (text : jsstring) (hasMedia : bool),
    let d := determineConfig g text hasMedia in
    let c := Descriptor.config d in
    if Globals.isDevMode g then
      Config.temperature c = Some (DevConfig.temperature (Globals.devConfig g))
      /\ Config.topP c = Some (DevConfig.topP (Globals.devConfig g))
      /\ Descriptor.modeLabel d
         = Descriptor.modeLabel (selectMode g text hasMedia) ++ js " (Dev)"
      /\ (Config.maxOutputTokens c = None <-> Config.thinkingConfig c <> None)
      /\ (Config.thinkingConfig c = None ->
          Config.maxOutputTokens c
          = Some (DevConfig.maxOutputTokens (Globals.devConfig g)))
    else
      Config.systemInstruction c = None /\ Config.temperature c = None
      /\ Config.topP c = None /\ Config.maxOutputTokens c = None
      /\ Config.safetySettings c = None
      /\ d = selectMode g text hasMedia.
Proof.
  intros g text hasMedia d c. subst c d.
  unfold determineConfig.
  case_eq (Globals.isDevMode g); intros Hdev.
  - cbn [Descriptor.config Descriptor.modeLabel].
    unfold devOverrides.
    cbn [Config.temperature Config.topP Config.maxOutputTokens
         Config.thinkingConfig].
    destruct (selectMode_leaves_overrides_unset g text hasMedia) as [Hmax _].
    cbv zeta in Hmax.
    destruct (Config.thinkingConfig (Descriptor.config (selectMode g text hasMedia)))
      as [budget|]; repeat split; intros; congruence.
  - unfold selectMode. rewrite Hdev.
    destruct hasMedia; [repeat split|].
    destruct (useThinking g text); [repeat split|].
    destruct (useSearch g text || useMaps g); repeat split.
Qed.

(** X5. Without manual selection and without an attachment, a text that
    matches the reasoning pattern gets the reasoning budget and no tools,
    also when it matches the search pattern. *)
Theorem reasoning_precedes_search :
  forall (g : Globals.t) (text : jsstring),
    manualSelection g = false ->
    RegExp.test INTENTS.THINK text = true ->
    let d := determineConfig g text false in
    Config.thinkingConfig (Descriptor.config d) = Some 32768%Z
    /\ Config.tools (Descriptor.config d) = None
    /\ Descriptor.model d = js "gemini-3-pro-preview".
Proof.
  intros g text Hman Hthink d. subst d.
  unfold manualSelection in Hman.
  unfold determineConfig, selectMode, useThinking.
  rewrite Hman, Hthink.
  destruct (Globals.isDevMode g); repeat split.
Qed.

Lemma reasoning_precedes_search_witness :
  RegExp.test INTENTS.SEARCH (js "search for the latest math news") = true
  /\ Config.tools
       (Descriptor.config
          (determineConfig Globals.initial
             (js "search for the latest math news") false)) = None.
Proof.
  split; [vm_compute; reflexivity|].
  apply (reasoning_precedes_search Globals.initial
           (js "search for the latest math news")).
  - reflexivity.
  - vm_compute. reflexivity.
Defined.

(* ------------------------------------------------------------------ *)
(** * Strings: white space, case and occurrences *)

Lemma trimStart_blank s : blank s = true -> JsString.trimStart s = [].
Proof.
  induction s as [|c s IH]; cbn; [reflexivity|].
  destruct (JsString.isWhiteSpace c); [exact IH|discriminate].
Qed.

Lemma trimStart_keeps_blank s : blank (JsString.trimStart s) = blank s.
Proof.
  induction s as [|c s IH]; [reflexivity|].
  cbn [JsString.trimStart]. case_eq (JsString.isWhiteSpace c); intros Hc.
  - rewrite IH. cbn. rewrite Hc. reflexivity.
  - reflexivity.
Qed.

Lemma blank_rev s : blank (rev s) = blank s.
Proof.
  unfold blank. induction s as [|c s IH]; [reflexivity|].
  cbn. rewrite forallb_app, IH. cbn. rewrite andb_true_r. apply andb_comm.
Qed.

(** [s.trim()] is empty exactly when [s] is white space only. *)
Lemma trim_truthy s : JsString.truthy (JsString.trim s) = negb (blank s).
Proof.
  unfold JsString.trim. case_eq (blank s); intros Hb.
  - rewrite (trimStart_blank s Hb). reflexivity.
  - rewrite <- (trimStart_keeps_blank s), <- (blank_rev (JsString.trimStart s)),
      <- (trimStart_keeps_blank (rev (JsString.trimStart s))),
      <- (blank_rev (JsString.trimStart (rev (JsString.trimStart s)))) in Hb.
    destruct (rev (JsString.trimStart (rev (JsString.trimStart s))));
      [discriminate Hb|reflexivity].
Qed.

(** X6. In developer mode the persona instruction is sent exactly when it
    holds a code unit that is not white space, and then as it was typed,
    white space around it included. *)
Theorem persona_sent_unless_blank :
  forall (g : Globals.t) (text : jsstring) (hasMedia : bool),
    Globals.isDevMode g = true ->
    let persona := DevConfig.systemInstruction (Globals.devConfig g) in
    Config.systemInstruction
      (Descriptor.config (determineConfig g text hasMedia))
    = if blank persona then None else Some persona.
Proof.
  intros g text hasMedia Hdev persona. subst persona.
  unfold determineConfig. rewrite Hdev. cbn [Descriptor.config].
  unfold devOverrides. cbn [Config.systemInstruction].
  rewrite trim_truthy.
  destruct (blank _); cbn [negb]; [|reflexivity].
  unfold selectMode.
  destruct hasMedia; [reflexivity|].
  destruct (useThinking g text); [reflexivity|].
  destruct (useSearch g text || useMaps g); [reflexivity|].
  rewrite Hdev. reflexivity.
Qed.

Lemma persona_sent_unless_blank_witness :
  Config.systemInstruction
    (Descriptor.config
       (determineConfig
          (devGlobals
             {| DevConfig.systemInstruction := js "  be brief ";
                DevConfig.temperature := 1.0%float;
                DevConfig.topP := 0.5%float;
                DevConfig.maxOutputTokens := 2048%float;
                DevConfig.model := js "gemini-2.5-flash-lite";
                DevConfig.safetyThreshold := js "BLOCK_NONE";
                DevConfig.tools := {| Tools.googleSearch := false;
                                      Tools.googleMaps := false;
                                      Tools.thinking := false |};
                DevConfig.forceTools := false |} None)
          (js "hello") false))
  = Some (js "  be brief ").
Proof.
  refine (persona_sent_unless_blank _ (js "hello") false _).
  reflexivity.
Defined.

Lemma canonicalize_idem c :
  RegExp.canonicalize (RegExp.canonicalize c) = RegExp.canonicalize c.
Proof.
  unfold RegExp.canonicalize.
  destruct ((97 <=? c) && (c <=? 122))%N eqn:E; [|rewrite E; reflexivity].
  apply andb_true_iff in E. destruct E as [E1 E2].
  apply N.leb_le in E1, E2.
  replace ((97 <=? c - 32) && (c - 32 <=? 122))%N with false; [reflexivity|].
  symmetry. apply andb_false_iff. left. apply N.leb_gt. lia.
Qed.

(** Matching by [eq] does not see a change of the text that [eq] does not
    see. *)
Lemma prefixBy_map eq f p s :
  (forall a b, eq a (f b) = eq a b) ->
  JsString.prefixBy eq p (map f s) = JsString.prefixBy eq p s.
Proof.
  intros H. revert s.
  induction p as [|a p IH]; intros [|b s]; cbn; try reflexivity.
  rewrite H, IH. reflexivity.
Qed.

Lemma occursBy_map eq f p s :
  (forall a b, eq a (f b) = eq a b) ->
  JsString.occursBy eq p (map f s) = JsString.occursBy eq p s.
Proof.
  intros H. induction s as [|b s IH].
  - reflexivity.
  - cbn [map JsString.occursBy]. rewrite <- IH.
    change (f b :: map f s) with (map f (b :: s)).
    rewrite (prefixBy_map eq f p (b :: s) H). reflexivity.
Qed.

Lemma test_ignores_case r t1 t2 :
  RegExp.ignoreCase r = true ->
  sameUpToCase t1 t2 ->
  RegExp.test r t1 = RegExp.test r t2.
Proof.
  intros Hi Hc. unfold RegExp.test.
  assert (H : forall t w,
             JsString.occursBy (RegExp.unitEq r) w (map RegExp.canonicalize t)
             = JsString.occursBy (RegExp.unitEq r) w t).
  { intros t w. apply occursBy_map. intros a b.
    unfold RegExp.unitEq. rewrite Hi, canonicalize_idem. reflexivity. }
  induction (RegExp.alternatives r) as [|w ws IH]; [reflexivity|].
  cbn [existsb]. rewrite IH, <- (H t1 w), <- (H t2 w), Hc. reflexivity.
Qed.

(** X7. The descriptor does not depend on the case of ASCII letters in the
    text: two texts that become equal when [a]..[z] are replaced by
    [A]..[Z] give the same descriptor. *)
Theorem descriptor_ignores_case :
  forall (g : Globals.t) (t1 t2 : jsstring) (hasMedia : bool),
    sameUpToCase t1 t2 ->
    determineConfig g t1 hasMedia = determineConfig g t2 hasMedia.
Proof.
  intros g t1 t2 hasMedia H.
  apply determineConfig_text_reads; apply test_ignores_case;
    solve [reflexivity | exact H].
Qed.

Lemma descriptor_ignores_case_witness :
  determineConfig Globals.initial (js "LATEST News") false
  = determineConfig Globals.initial (js "latest news") false.
Proof.
  apply descriptor_ignores_case. vm_compute. reflexivity.
Defined.

(** Extending a string keeps the occurrences it has. *)
Lemma prefixBy_app eq p s post :
  JsString.prefixBy eq p s = true -> JsString.prefixBy eq p (s ++ post) = true.
Proof.
  revert s. induction p as [|a p IH]; intros [|b s]; cbn; try easy.
  intros H. apply andb_true_iff in H. destruct H as [-> H].
  now apply IH.
Qed.

Lemma occursBy_app eq p pre s post :
  JsString.occursBy eq p s = true ->
  JsString.occursBy eq p (pre ++ s ++ post) = true.
Proof.
  intros H.
  assert (Hpost : JsString.occursBy eq p (s ++ post) = true).
  { clear pre. induction s as [|b s IH].
    - cbn in H. rewrite orb_false_r in H.
      destruct p; [|discriminate H].
      destruct post; reflexivity.
    - cbn [JsString.occursBy] in H. apply orb_true_iff in H.
      cbn [app JsString.occursBy]. apply orb_true_iff.
      destruct H as [H|H]; [left; now apply (prefixBy_app eq p (b :: s))|].
      right. now apply IH. }
  clear H. induction pre as [|c pre IH]; [exact Hpost|].
  cbn [app JsString.occursBy]. rewrite IH. apply orb_true_r.
Qed.

Lemma test_app r pre text post :
  RegExp.test r text = true -> RegExp.test r (pre ++ text ++ post) = true.
Proof.
  unfold RegExp.test. rewrite !existsb_exists.
  intros (w & Hw & H). exists w. split; [exact Hw|].
  now apply occursBy_app.
Qed.

(** X8. Without manual selection and without an attachment, a text that
    gets the reasoning budget keeps it whatever is written before and after
    it. *)
Theorem reasoning_survives_more_text :
  forall (g : Globals.t) (pre text post : jsstring) (budget : Z),
    manualSelection g = false ->
    Config.thinkingConfig
      (Descriptor.config (determineConfig g text false)) = Some budget ->
    Config.thinkingConfig
      (Descriptor.config (determineConfig g (pre ++ text ++ post) false))
    = Some budget.
Proof.
  intros g pre text post budget Hman.
  assert (Hb : forall t, Config.thinkingConfig
                           (Descriptor.config (determineConfig g t false))
                         = if RegExp.test INTENTS.THINK t then Some 32768%Z else None).
  { intros t. unfold determineConfig, selectMode, useThinking.
    unfold manualSelection in Hman. rewrite Hman.
    destruct (RegExp.test INTENTS.THINK t);
      [destruct (Globals.isDevMode g); reflexivity|].
    destruct (useSearch g t || useMaps g);
      destruct (Globals.isDevMode g); reflexivity. }
  rewrite !Hb.
  case_eq (RegExp.test INTENTS.THINK text); [|discriminate].
  intros Ht H. rewrite (test_app INTENTS.THINK pre text post Ht). exact H.
Qed.

Lemma reasoning_survives_more_text_witness :
  Config.thinkingConfig
    (Descriptor.config
       (determineConfig Globals.initial
          (js "please " ++ js "solve" ++ js " this for me") false))
  = Some 32768%Z.
Proof.
  apply reasoning_survives_more_text; vm_compute; reflexivity.
Defined.

(** A code unit from [A] to [z] is not white space. *)
Lemma letters_are_not_white_space c :
  (65 <= c <= 122)%N -> JsString.isWhiteSpace c = false.
Proof.
  intros Hc. unfold JsString.isWhiteSpace. cbn [existsb].
  repeat match goal with
         | |- context [(c =? ?k)%N] =>
             replace (c =? k)%N with false by (symmetry; apply N.eqb_neq; lia)
         end.
  replace (8192 <=? c)%N with false by (symmetry; apply N.leb_gt; lia).
  reflexivity.
Qed.

(** Under the [i] flag a lower-case letter of a pattern matches no white
    space. *)
Lemma letter_matches_no_white_space r a c :
  RegExp.ignoreCase r = true ->
  (97 <= a <= 122)%N ->
  JsString.isWhiteSpace c = true ->
  RegExp.unitEq r a c = false.
Proof.
  intros Hi Ha Hc. unfold RegExp.unitEq. rewrite Hi.
  apply N.eqb_neq. intros E.
  assert (Hn : ~ (65 <= c <= 122)%N).
  { intros H. rewrite (letters_are_not_white_space c H) in Hc. discriminate. }
  revert E. unfold RegExp.canonicalize.
  replace ((97 <=? a) && (a <=? 122))%N with true
    by (symmetry; apply andb_true_iff; split; apply N.leb_le; lia).
  destruct ((97 <=? c) && (c <=? 122))%N eqn:Ec.
  - apply andb_true_iff in Ec. destruct Ec as [E1 E2].
    apply N.leb_le in E1, E2. lia.
  - lia.
Qed.

Section OccurrencesAndWhiteSpace.

Variable eq : N -> N -> bool.
Variable p : jsstring.
Hypothesis no_match :
  forall a c, In a p -> JsString.isWhiteSpace c = true -> eq a c = false.

Lemma prefixBy_snoc_ws c l :
  JsString.isWhiteSpace c = true ->
  JsString.prefixBy eq p (l ++ [c]) = JsString.prefixBy eq p l.
Proof.
  intros Hc. revert l. revert no_match.
  induction p as [|a q IH]; intros Hno [|b l]; cbn; try reflexivity.
  - rewrite (Hno a c (or_introl eq_refl) Hc). reflexivity.
  - rewrite IH; [reflexivity|]. intros a' c' Hin. apply Hno. now right.
Qed.

Lemma occursBy_snoc_ws c s :
  JsString.isWhiteSpace c = true ->
  JsString.occursBy eq p (s ++ [c]) = JsString.occursBy eq p s.
Proof.
  intros Hc. induction s as [|b s IH].
  - cbn [app JsString.occursBy].
    rewrite (prefixBy_snoc_ws c [] Hc : JsString.prefixBy eq p [c] = _).
    destruct (JsString.prefixBy eq p []); reflexivity.
  - cbn [app JsString.occursBy].
    rewrite IH, (prefixBy_snoc_ws c (b :: s) Hc : JsString.prefixBy eq p (b :: s ++ [c]) = _).
    reflexivity.
Qed.

Lemma occursBy_cons_ws c s :
  JsString.isWhiteSpace c = true ->
  JsString.occursBy eq p (c :: s) = JsString.occursBy eq p s.
Proof.
  intros Hc. cbn [JsString.occursBy].
  destruct p as [|a q] eqn:Ep.
  - destruct s; reflexivity.
  - cbn [JsString.prefixBy].
    rewrite (no_match a c (or_introl eq_refl) Hc). reflexivity.
Qed.

Lemma occursBy_trimStart s :
  JsString.occursBy eq p (JsString.trimStart s) = JsString.occursBy eq p s.
Proof.
  induction s as [|c s IH]; [reflexivity|].
  cbn [JsString.trimStart]. case_eq (JsString.isWhiteSpace c); intros Hc.
  - rewrite IH. symmetry. now apply occursBy_cons_ws.
  - reflexivity.
Qed.

Lemma occursBy_trimEnd s :
  JsString.occursBy eq p (rev (JsString.trimStart (rev s)))
  = JsString.occursBy eq p s.
Proof.
  induction s as [|c s IH] using rev_ind; [reflexivity|].
  rewrite rev_unit. cbn [JsString.trimStart].
  case_eq (JsString.isWhiteSpace c); intros Hc.
  - rewrite IH. symmetry. now apply occursBy_snoc_ws.
  - cbn [rev]. rewrite rev_involutive. reflexivity.
Qed.

(** Trimming keeps and adds no occurrence of a word that matches no white
    space. *)
Lemma occursBy_trim s :
  JsString.occursBy eq p (JsString.trim s) = JsString.occursBy eq p s.
Proof.
  unfold JsString.trim. rewrite occursBy_trimEnd. apply occursBy_trimStart.
Qed.

End OccurrencesAndWhiteSpace.

Lemma test_trim r text :
  RegExp.ignoreCase r = true ->
  lowerCaseWords r = true ->
  RegExp.test r (JsString.trim text) = RegExp.test r text.
Proof.
  intros Hi Hw. unfold RegExp.test, lowerCaseWords in *.
  induction (RegExp.alternatives r) as [|w ws IH]; [reflexivity|].
  cbn [existsb forallb] in *. apply andb_true_iff in Hw. destruct Hw as [Hw Hws].
  rewrite (IH Hws). f_equal.
  apply occursBy_trim. intros a c Ha Hc.
  apply letter_matches_no_white_space; [exact Hi| |exact Hc].
  rewrite forallb_forall in Hw. specialize (Hw a Ha).
  apply andb_true_iff in Hw. destruct Hw as [H1 H2].
  apply N.leb_le in H1, H2. lia.
Qed.

Lemma determineConfig_trim g text hasMedia :
  determineConfig g (JsString.trim text) hasMedia
  = determineConfig g text hasMedia.
Proof.
  apply determineConfig_text_reads; apply test_trim; reflexivity.
Qed.

(** X9. White space around the text does not change the descriptor:
    [determineConfig] gives the same for a text and for the text trimmed. *)
Theorem descriptor_ignores_surrounding_white_space :
  forall (g : Globals.t) (text : jsstring) (hasMedia : bool),
    determineConfig g (JsString.trim text) hasMedia
    = determineConfig g text hasMedia.
Proof.
  intros g text hasMedia.
  apply determineConfig_text_reads; apply test_trim; reflexivity.
Qed.

(* ------------------------------------------------------------------ *)
(** * Further properties of [getContextualActions] *)

(** X10. While a text is typed and nothing is staged, the suggestions
    depend on the text alone: neither the role of the last message nor
    anything in the module state changes them. *)
Theorem typing_suggestions_depend_on_text_only :
  forall (g g' : Globals.t) (text : jsstring) (r r' : option Role),
    text <> [] ->
    getContextualActions g text false r = getContextualActions g' text false r'.
Proof.
  intros g g' text r r' Hne. unfold getContextualActions.
  destruct text as [|c text]; [congruence|]. reflexivity.
Qed.

Lemma typing_suggestions_depend_on_text_only_witness :
  getContextualActions Globals.initial (js "weather") false None
  = getContextualActions fencedReplyWithImage (js "weather") false (Some model).
Proof.
  apply typing_suggestions_depend_on_text_only. discriminate.
Defined.

(** X11. With an empty text and nothing staged there are two cases.  When
    the last message is a model turn and [lastResponseContent] is not
    empty, the suggestions end with "Verify" and hold no "Brainstorm";
    otherwise they are "Brainstorm" and "Plan". *)
Theorem follow_ups_or_brainstorm :
  forall (g : Globals.t) (r : option Role),
    let actions := getContextualActions g (js "") false r in
    if isModel r && JsString.truthy (Globals.lastResponseContent g)
    then option_map Action.label (last (map Some actions) None) = Some (js "Verify")
         /\ hasLabel "Brainstorm" actions = false
    else map Action.label actions = [js "Brainstorm"; js "Plan"].
Proof.
  intros g r actions. subst actions.
  unfold getContextualActions.
  change (0 <? List.length (js ""))%nat with false. cbv iota.
  unfold followUpActions.
  destruct (isModel r && JsString.truthy (Globals.lastResponseContent g)).
  - destruct (JsString.includes _ _); [vm_compute; split; reflexivity|].
    destruct (500 <? _)%nat; vm_compute; split; reflexivity.
  - vm_compute. reflexivity.
Qed.

(** A list that [nodup] leaves as it is has no repeated element. *)
Lemma NoDup_by_nodup (l : list jsstring) :
  nodup (list_eq_dec N.eq_dec) l = l -> NoDup l.
Proof. intros <-. apply NoDup_nodup. Qed.

(** X12. No call returns more than three actions, so cutting the list to
    four removes nothing; and no two actions of a result share a label. *)
Theorem at_most_three_distinct_suggestions :
  forall (g : Globals.t) (text : jsstring) (hasMedia : bool) (r : option Role),
    let actions := getContextualActions g text hasMedia r in
    (List.length actions <= 3)%nat /\ NoDup (map Action.label actions).
Proof.
  intros g text hasMedia r actions. subst actions.
  unfold getContextualActions.
  destruct hasMedia.
  - unfold mediaActions.
    destruct (mediaStartsWith _ _); (split; [cbn -[Action.make]; lia|]);
      apply NoDup_by_nodup; vm_compute; reflexivity.
  - destruct (0 <? List.length text)%nat.
    + unfold textActions.
      destruct (_ || _ || _);
        [split; [cbn -[Action.make]; lia
                |apply NoDup_by_nodup; vm_compute; reflexivity]|].
      destruct (RegExp.test INTENTS.SEARCH text);
        [split; [cbn -[Action.make]; lia
                |apply NoDup_by_nodup; vm_compute; reflexivity]|].
      destruct (RegExp.test INTENTS.THINK text);
        (split; [cbn -[Action.make]; lia
                |apply NoDup_by_nodup; vm_compute; reflexivity]).
    + unfold followUpActions.
      destruct (isModel r && _);
        [|split; [cbn -[Action.make]; lia
                 |apply NoDup_by_nodup; vm_compute; reflexivity]].
      destruct (JsString.includes _ _);
        [split; [cbn -[Action.make]; lia
                |apply NoDup_by_nodup; vm_compute; reflexivity]|].
      destruct (500 <? _)%nat;
        (split; [cbn -[Action.make]; lia
                |apply NoDup_by_nodup; vm_compute; reflexivity]).
Qed.


(** X13. The bar of quick actions is never hidden: [updateQuickActions]
    always finds at least one action, so the branch that removes the bar
    is not taken. *)
Theorem quick_actions_always_shown :
  forall (g : Globals.t) (text : jsstring),
    exists actions,
      updateQuickActions g text = Some actions
      /\ actions <> []
      /\ actions
         = getContextualActions g text (hasMediaOf g)
             (option_map Message.role (lastMessage g)).
Proof.
  intros g text. unfold updateQuickActions.
  set (actions := getContextualActions g text (hasMediaOf g) _).
  assert (H : (0 < List.length actions)%nat).
  { subst actions. unfold getContextualActions.
    destruct (hasMediaOf g).
    - unfold mediaActions. destruct (mediaStartsWith _ _); cbn -[Action.make]; lia.
    - destruct (0 <? List.length text)%nat.
      + unfold textActions.
        destruct (_ || _ || _); [cbn -[Action.make]; lia|].
        destruct (RegExp.test INTENTS.SEARCH text); [cbn -[Action.make]; lia|].
        destruct (RegExp.test INTENTS.THINK text); cbn -[Action.make]; lia.
      + unfold followUpActions.
        destruct (isModel _ && _); [|cbn -[Action.make]; lia].
        destruct (JsString.includes _ _); [cbn -[Action.make]; lia|].
        destruct (500 <? _)%nat; cbn -[Action.make]; lia. }
  exists actions. apply Nat.ltb_lt in H as Hb. rewrite Hb.
  repeat split. intros E. rewrite E in H. cbn in H. lia.
Qed.

(* ------------------------------------------------------------------ *)
(** * Further properties of [handleSend] *)

(** The loop returns the texts of the chunks, joined in their order. *)
Lemma consume_text env chunks :
  forall full w full',
    fst (consume env chunks full w) = Ok full' ->
    full' = fold_left
              (fun full chunk =>
                 JsString.concat full
                   match Chunk.text chunk with
                   | Some s => s
                   | None => js "undefined"
                   end)
              chunks full.
Proof.
  induction chunks as [|chunk rest IH]; intros full w full'; cbn [consume fold_left].
  - unfold M.ret. cbn. congruence.
  - unfold M.bind at 1, M.lift at 1.
    destruct (Env.markedParse env _) as [parsed|e]; [|discriminate].
    unfold M.bind at 1. cbn [M.setSources].
    unfold M.bind at 1.
    destruct (JsValue.truthy (Chunk.groundingMetadata chunk)).
    + destruct (renderSources _ _) as [[[]|e] w2]; [apply IH|discriminate].
    + unfold M.ret. apply IH.
Qed.

(** The two ways the [try] block ends, with the world it leaves. *)
Lemma exchange_outcome env d parts w :
  let cc := ChatsCreate (Descriptor.model d)
              (map toContent (Globals.localHistory (World.globals w)))
              (Descriptor.config d) in
  let sm := SendMessageStream (payloadOf parts) in
  let r := exchange env d parts w in
  (exists e,
      fst r = Throw e
      /\ World.globals (snd r) = World.globals w
      /\ World.storedHistory (snd r) = World.storedHistory w
      /\ World.inputValue (snd r) = World.inputValue w
      /\ (World.trace (snd r) = World.trace w ++ [cc]
          \/ World.trace (snd r) = World.trace w ++ [cc; sm]))
  \/ (exists chunks,
        let full := streamText chunks in
        let m := modelMessage env d full in
        let h := Globals.localHistory (World.globals w) ++ [m] in
        Env.createThrows env = None
        /\ Env.stream env = Ok (chunks, None)
        /\ fst r = Ok tt
        /\ World.globals (snd r)
           = pushHistory m (setLastResponseContent full (World.globals w))
        /\ World.storedHistory (snd r)
           = (if Env.setItemThrows env h then World.storedHistory w else Some h)
        /\ World.inputValue (snd r) = World.inputValue w
        /\ World.trace (snd r)
           = World.trace w
             ++ [cc; sm; SetItemHistory h (negb (Env.setItemThrows env h))]).
Proof.
  intros cc sm r. subst r.
  destruct (exchange env d parts w) as [r w'] eqn:E. cbn [fst snd].
  unfold exchange, chatsCreate, sendMessageStream in E.
  unfold M.bind, M.getGlobals, M.emit, M.lift, M.throw, M.ret in E.
  cbn [World.globals World.storedHistory World.inputValue World.sources
       World.trace] in E.
  destruct (Env.createThrows env) as [e|].
  { injection E as <- <-. left. exists e. cbn. auto 6. }
  cbn [World.globals World.storedHistory World.inputValue World.sources
       World.trace] in E.
  destruct (Env.stream env) as [[chunks failure]|e]; cbn [fst snd] in E.
  2:{ injection E as <- <-. left. exists e. cbn. rewrite <- app_assoc. auto 6. }
  match type of E with
  | context [consume env chunks ?t ?w2] =>
      pose proof (consume_frame env chunks t w2) as (Fg & Fs & Fi & Ft);
      pose proof (consume_text env chunks t w2) as Hfull;
      destruct (consume env chunks t w2) as [[full|e] w3]
  end;
    cbn [fst snd World.globals World.storedHistory World.inputValue World.trace]
      in Fg, Fs, Fi, Ft, Hfull.
  2:{ injection E as <- <-. left. exists e.
      rewrite Fg, Fs, Fi, Ft, <- app_assoc. auto 6. }
  destruct failure as [e|].
  { injection E as <- <-. left. exists e.
    rewrite Fg, Fs, Fi, Ft, <- app_assoc. auto 6. }
  unfold M.modifyGlobals in E. rewrite saveMessage_run in E.
  injection E as <- <-. right. exists chunks.
  specialize (Hfull full eq_refl). fold (streamText chunks) in Hfull. subst full.
  cbn. rewrite Fg, Fs, Fi, Ft. repeat split.
  rewrite <- !app_assoc. reflexivity.
Qed.


(** X14. A send with nothing to send does nothing: when the input holds
    white space only and no attachment is staged, [handleSend] returns with
    the module state, the storage, the input field and the calls made as
    they were. *)
Theorem handleSend_ignores_blank_input :
  forall (env : Env.t) (w : World.t),
    blank (World.inputValue w) = true ->
    Globals.currentMedia (World.globals w) = None ->
    handleSend env w = (Ok tt, w).
Proof.
  intros env w Hb Hm. unfold handleSend.
  unfold M.bind at 1, M.getInputValue. unfold M.bind at 1, M.getGlobals at 1.
  rewrite trim_truthy, Hb. unfold hasMediaOf. rewrite Hm. reflexivity.
Qed.

Lemma handleSend_ignores_blank_input_witness :
  handleSend brokenStream
    {| World.globals := Globals.initial;
       World.storedHistory := None;
       World.inputValue := js "   ";
       World.sources := None;
       World.trace := [] |}
  = (Ok tt,
     {| World.globals := Globals.initial;
        World.storedHistory := None;
        World.inputValue := js "   ";
        World.sources := None;
        World.trace := [] |}).
Proof.
  apply handleSend_ignores_blank_input; reflexivity.
Defined.


(** The world a send that proceeds leaves: after the user turn, either the
    [catch] block has run or the model turn has been saved. *)
Lemma handleSend_world env w :
  JsString.truthy (JsString.trim (World.inputValue w)) = true
  \/ hasMediaOf (World.globals w) = true ->
  let g := World.globals w in
  let text := JsString.trim (World.inputValue w) in
  let d := determineConfig g text (hasMediaOf g) in
  let a := afterUserTurn env w in
  let h := Globals.localHistory (World.globals a) in
  let cc := ChatsCreate (Descriptor.model d) (map toContent h) (Descriptor.config d) in
  let sm := SendMessageStream (payloadOf (userParts text (Globals.currentMedia g))) in
  let w' := snd (handleSend env w) in
  fst (handleSend env w) = Ok tt
  /\ World.inputValue w' = js ""
  /\ ((exists e calls,
          World.trace w' = World.trace a ++ calls ++ [ConsoleError e]
          /\ (calls = [cc] \/ calls = [cc; sm])
          /\ World.globals w' = World.globals a
          /\ World.storedHistory w' = World.storedHistory a)
      \/ (exists chunks,
            let full := streamText chunks in
            let m := modelMessage env d full in
            Env.createThrows env = None
            /\ Env.stream env = Ok (chunks, None)
            /\ World.globals w'
               = pushHistory m (setLastResponseContent full (World.globals a))
            /\ World.storedHistory w'
               = (if Env.setItemThrows env (h ++ [m])
                  then World.storedHistory a else Some (h ++ [m]))
            /\ World.trace w'
               = World.trace a
                 ++ [cc; sm;
                     SetItemHistory (h ++ [m])
                       (negb (Env.setItemThrows env (h ++ [m])))])).
Proof.
  intros Hsend g text d a h cc sm w'. subst w'.
  rewrite (handleSend_run env w Hsend). fold g text.
  change (determineConfig (setAppState chatting g) text (hasMediaOf g)) with d.
  unfold M.tryCatch.
  pose proof (exchange_outcome env d (userParts text (Globals.currentMedia g)) a)
    as H.
  fold h in H. fold cc sm in H. subst a.
  destruct (exchange env d (userParts text (Globals.currentMedia g))
              (afterUserTurn env w)) as [r w1].
  cbn [fst snd] in H.
  destruct H as [(e & Hr & Hg & Hs & Hi & Ht)
                | (chunks & Hc & Hst & Hr & Hg & Hs & Hi & Ht)]; subst r.
  - cbn [M.emit fst snd World.inputValue World.trace World.globals
         World.storedHistory].
    repeat split; [exact Hi|].
    left. exists e.
    destruct Ht as [Ht | Ht]; rewrite Ht;
      [exists [cc] | exists [cc; sm]];
      rewrite <- !app_assoc; auto.
  - cbn [fst snd]. repeat split; [exact Hi|].
    right. exists chunks. cbv zeta. auto.
Qed.



(** X16. After a send that proceeds the input field is empty, nothing is
    staged, the state is [chatting], and developer mode and the developer
    configuration are as before, however the exchange ends. *)
Theorem handleSend_clears_input_and_attachment :
  forall (env : Env.t) (w : World.t),
    JsString.truthy (JsString.trim (World.inputValue w)) = true
    \/ hasMediaOf (World.globals w) = true ->
    let w' := snd (handleSend env w) in
    World.inputValue w' = js ""
    /\ Globals.currentMedia (World.globals w') = None
    /\ Globals.appState (World.globals w') = chatting
    /\ Globals.isDevMode (World.globals w') = Globals.isDevMode (World.globals w)
    /\ Globals.devConfig (World.globals w') = Globals.devConfig (World.globals w).
Proof.
  intros env w Hsend w'. subst w'.
  destruct (handleSend_world env w Hsend)
    as (_ & Hi & [(e & calls & _ & _ & Hg & _) | (chunks & _ & _ & Hg & _)]);
    rewrite Hg; repeat split; exact Hi.
Qed.

Lemma handleSend_clears_input_and_attachment_witness :
  World.inputValue (snd (handleSend brokenStream typedWorld)) = js "".
Proof.
  apply (handleSend_clears_input_and_attachment brokenStream typedWorld).
  left. reflexivity.
Defined.


(** X18. When local storage accepts every write, the stored history is
    the history in memory after a send that proceeds, whether the exchange
    failed or not. *)
Theorem stored_history_follows_memory :
  forall (env : Env.t) (w : World.t),
    (forall h, Env.setItemThrows env h = false) ->
    JsString.truthy (JsString.trim (World.inputValue w)) = true
    \/ hasMediaOf (World.globals w) = true ->
    World.storedHistory (snd (handleSend env w))
    = Some (Globals.localHistory (World.globals (snd (handleSend env w)))).
Proof.
  intros env w Hstore Hsend.
  destruct (handleSend_world env w Hsend)
    as (_ & _ & [(e & calls & _ & _ & Hg & Hs) | (chunks & _ & _ & Hg & Hs & _)]);
    rewrite Hg, Hs; cbn; rewrite ?Hstore; reflexivity.
Qed.

Lemma stored_history_follows_memory_witness :
  World.storedHistory (snd (handleSend twoFragments typedWorld))
  = Some (Globals.localHistory
            (World.globals (snd (handleSend twoFragments typedWorld)))).
Proof.
  apply stored_history_follows_memory.
  - intros h. reflexivity.
  - left. reflexivity.
Defined.



(** X20. What the mode pill shows while typing is what is sent: the
    [chats.create] call of a send carries the model and the config of the
    descriptor that [updateUIForInput] computed for the input as typed
    (not trimmed), and a model turn that gets saved carries its label. *)
Theorem send_uses_the_mode_shown :
  forall (env : Env.t) (w : World.t),
    JsString.truthy (JsString.trim (World.inputValue w)) = true
    \/ hasMediaOf (World.globals w) = true ->
    let g := World.globals w in
    let shown := determineConfig g (World.inputValue w) (hasMediaOf g) in
    let w' := snd (handleSend env w) in
    (InputView.pillLabel (updateUIForInput g (World.inputValue w)) = None
     \/ InputView.pillLabel (updateUIForInput g (World.inputValue w))
        = Some (Descriptor.modeLabel shown))
    /\ exists calls added,
         addedBy w w' calls
         /\ (forall m history c,
                In (ChatsCreate m history c) calls ->
                m = Descriptor.model shown /\ c = Descriptor.config shown)
         /\ Globals.localHistory (World.globals w')
            = Globals.localHistory g ++ added
         /\ (forall turn,
                In turn added ->
                Message.role turn = model ->
                Message.mode turn = Some (Descriptor.modeLabel shown)).
Proof.
  intros env w Hsend g shown w'. subst w'.
  split.
  { unfold updateUIForInput. cbn [InputView.pillLabel].
    destruct (_ || _ || _); auto. }
  pose proof (determineConfig_trim g (World.inputValue w) (hasMediaOf g)) as Hd.
  fold shown in Hd. subst g.
  destruct (handleSend_world env w Hsend)
    as (_ & _ & [(e & calls & Ht & Hc & Hg & _) | (chunks & _ & _ & Hg & _ & Ht)]);
    rewrite Hd in *; unfold addedBy; rewrite Ht, Hg;
    cbn [afterUserTurn World.trace World.globals pushHistory
         Globals.localHistory setCurrentMedia setAppState
         setLastResponseContent];
    rewrite <- !app_assoc; do 2 eexists; (split; [reflexivity|]);
    (split; [|split; [reflexivity|]]).
  - intros m history c Hin. cbn [app] in Hin.
    destruct Hc as [-> | ->]; cbn [app] in Hin; in_cases;
      injection Hin as <- _ <-; auto.
  - intros turn Hin Hrole. in_cases. subst turn. discriminate Hrole.
  - intros m history c Hin. cbn [app] in Hin. in_cases.
    injection Hin as <- _ <-. auto.
  - intros turn Hin Hrole. cbn [app] in Hin. in_cases; subst turn;
      [discriminate Hrole|reflexivity].
Qed.

Lemma send_uses_the_mode_shown_witness :
  InputView.pillLabel
    (updateUIForInput (World.globals typedWorld) (World.inputValue typedWorld))
  = Some (js "Deep Thinking").
Proof.
  destruct (send_uses_the_mode_shown twoFragments typedWorld (or_introl eq_refl))
    as [[H | H] _].
  - vm_compute in H. discriminate H.
  - rewrite H. vm_compute. reflexivity.
Defined.

(* ------------------------------------------------------------------ *)
(** * Further properties of [renderGroundingSources] *)

Lemma get_throws_TypeError v k e : JsValue.get v k = Throw e -> e = TypeError.
Proof. destruct v; cbn; congruence. Qed.

Lemma groundingChunks_throws_TypeError metadata e :
  groundingChunks metadata = Throw e -> e = TypeError.
Proof.
  unfold groundingChunks.
  destruct (JsValue.get metadata (js "groundingChunks")) as [v|e'] eqn:E;
    cbn [ResultMonad.bind].
  - destruct (JsValue.or v (JsValue.Array [])); congruence.
  - intros H; injection H as <-. exact (get_throws_TypeError _ _ _ E).
Qed.

(** What [filter] followed by [map] returns, when it returns, are truthy
    members; when it throws, it throws a [TypeError]. *)
Lemma sourcesBy_result k chunks :
  match sourcesBy k chunks with
  | Ok l => Forall (fun s => JsValue.truthy s = true) l
  | Throw e => e = TypeError
  end.
Proof.
  unfold sourcesBy.
  assert (Hf : match filterR (fun c => v <-! JsValue.get c k ;; Ok (JsValue.truthy v))
                       chunks with
               | Ok kept => Forall (fun c => JsValue.truthy (prop k c) = true
                                             /\ JsValue.get c k = Ok (prop k c)) kept
               | Throw e => e = TypeError
               end).
  { induction chunks as [|c chunks IH]; cbn [filterR]; [constructor|].
    destruct (JsValue.get c k) as [v|e] eqn:E; cbn [ResultMonad.bind];
      [|exact (get_throws_TypeError _ _ _ E)].
    destruct (filterR _ chunks) as [kept|e]; cbn [ResultMonad.bind]; [|exact IH].
    destruct (JsValue.truthy v) eqn:Hv; [|exact IH].
    constructor; [|exact IH]. unfold prop. rewrite E. auto. }
  destruct (filterR _ chunks) as [kept|e]; cbn [ResultMonad.bind]; [|exact Hf].
  induction Hf as [|c kept [Ht Hg] _ IH]; cbn [mapR]; [constructor|].
  rewrite Hg. cbn [ResultMonad.bind].
  destruct (mapR _ kept); cbn [ResultMonad.bind]; [|exact IH].
  constructor; assumption.
Qed.

(** A chunk that is [undefined] or [null] makes the first [filter] throw. *)
Lemma sourcesBy_nullish k chunks c :
  In c chunks -> isNullish c = true -> exists e, sourcesBy k chunks = Throw e.
Proof.
  intros Hin Hc. unfold sourcesBy.
  assert (H : exists e,
             filterR (fun c => v <-! JsValue.get c k ;; Ok (JsValue.truthy v)) chunks
             = Throw e).
  { induction chunks as [|x chunks IH]; [destruct Hin|].
    cbn [filterR]. destruct Hin as [-> | Hin].
    - exists TypeError. destruct c; try discriminate Hc; reflexivity.
    - destruct (JsValue.get x k) as [v|e]; cbn [ResultMonad.bind];
        [|exists e; reflexivity].
      destruct (IH Hin) as [e ->]. exists e. reflexivity. }
  destruct H as [e ->]. exists e. reflexivity.
Qed.

(** X21. A call of [renderGroundingSources] that throws throws a
    [TypeError] and leaves the grid with the cards it had; and it does
    throw, on a container with a grid, whenever one of the chunks is
    [undefined] or [null]. *)
Theorem failed_rendering_keeps_cards :
  forall (metadata : JsValue.t) (children : list Card.t),
    (forall e,
        fst (renderGroundingSources metadata (Some (Grid children))) = Throw e ->
        renderGroundingSources metadata (Some (Grid children))
        = (Throw TypeError, Some (Grid children)))
    /\ (forall chunks c,
           groundingChunks metadata = Ok chunks ->
           In c chunks -> isNullish c = true ->
           renderGroundingSources metadata (Some (Grid children))
           = (Throw TypeError, Some (Grid children))).
Proof.
  intros metadata children.
  assert (Hthrow : forall e,
            fst (renderGroundingSources metadata (Some (Grid children))) = Throw e ->
            renderGroundingSources metadata (Some (Grid children))
            = (Throw TypeError, Some (Grid children))).
  { intros e. unfold renderGroundingSources.
    destruct (groundingChunks metadata) as [chunks|e1] eqn:Eg;
      cbn [ResultMonad.bind];
      [|rewrite (groundingChunks_throws_TypeError _ _ Eg); reflexivity].
    pose proof (sourcesBy_result (js "web") chunks) as Hw.
    destruct (sourcesBy (js "web") chunks) as [webSources|e1];
      cbn [ResultMonad.bind]; [|subst e1; reflexivity].
    pose proof (sourcesBy_result (js "maps") chunks) as Hm.
    destruct (sourcesBy (js "maps") chunks) as [mapSources|e1];
      cbn [ResultMonad.bind]; [|subst e1; reflexivity].
    rewrite (appendCards_ok (webSources ++ mapSources)
               (proj2 (Forall_app _ _ _) (conj Hw Hm))).
    cbn [fst]. discriminate. }
  split; [exact Hthrow|].
  intros chunks c Hg Hin Hc.
  destruct (sourcesBy_nullish (js "web") chunks c Hin Hc) as [e Hs].
  apply (Hthrow e).
  unfold renderGroundingSources. rewrite Hg. cbn [ResultMonad.bind].
  rewrite Hs. reflexivity.
Qed.

Lemma failed_rendering_keeps_cards_witness :
  renderGroundingSources
    (metadataOf [webChunk "https://a.example/" "A"; JsValue.Null])
    (Some (Grid [cardOf (sourceObject "https://b.example/" "B")]))
  = (Throw TypeError,
     Some (Grid [cardOf (sourceObject "https://b.example/" "B")])).
Proof.
  apply (proj2 (failed_rendering_keeps_cards _ _)
           [webChunk "https://a.example/" "A"; JsValue.Null] JsValue.Null).
  - reflexivity.
  - right. left. reflexivity.
  - reflexivity.
Defined.

(** X22. Metadata that is an object without grounding chunks (the member
    missing, [null] or an empty array) empties the grid: the cards of an
    earlier fragment are removed and none is added. *)
Theorem metadata_without_chunks_empties_grid :
  forall (props : list (jsstring * JsValue.t)) (children : list Card.t),
    JsValue.truthy (JsValue.lookup (js "groundingChunks") props) = false
    \/ JsValue.lookup (js "groundingChunks") props = JsValue.Array [] ->
    renderGroundingSources (JsValue.Object props) (Some (Grid children))
    = (Ok tt, Some (Grid [])).
Proof.
  intros props children H.
  unfold renderGroundingSources, groundingChunks.
  cbn [JsValue.get ResultMonad.bind]. unfold JsValue.or.
  destruct H as [H | H]; rewrite H; reflexivity.
Qed.

Lemma metadata_without_chunks_empties_grid_witness :
  renderGroundingSources
    (JsValue.Object [(js "webSearchQueries", JsValue.Array [])])
    (Some (Grid [cardOf (sourceObject "https://b.example/" "B")]))
  = (Ok tt, Some (Grid [])).
Proof.
  apply metadata_without_chunks_empties_grid. left. reflexivity.
Defined.



(* ------------------------------------------------------------------ *)
(** * The status line and the state class *)

(** X24. The colour of the status dot tells what the request does: pink
    with an attachment, purple with a reasoning budget, green with the
    search tool, orange with the maps tool alone, red for a plain request
    in developer mode, grey otherwise. *)
Theorem status_colour_follows_request :
  forall (g : Globals.t) (text : jsstring) (hasMedia : bool),
    let d := determineConfig g text hasMedia in
    statusColor (statusLabel (Descriptor.modeLabel d))
    = if hasMedia then js "#FF2D55"
      else match Config.thinkingConfig (Descriptor.config d),
                 Config.tools (Descriptor.config d) with
           | Some _, _ => js "#AF52DE"
           | None, Some tools =>
               if hasSearchTool tools then js "#34C759" else js "#FF9500"
           | None, None =>
               if Globals.isDevMode g then js "#FF3B30" else js "#888"
           end.
Proof.
  intros g text hasMedia d. subst d.
  unfold determineConfig, selectMode.
  destruct hasMedia.
  { destruct (mediaStartsWith _ _), (Globals.isDevMode g); vm_compute; reflexivity. }
  destruct (useThinking g text).
  { destruct (Globals.isDevMode g); vm_compute; reflexivity. }
  destruct (useSearch g text); cbn [orb].
  { destruct (useMaps g), (Globals.isDevMode g); vm_compute; reflexivity. }
  destruct (useMaps g).
  { destruct (Globals.isDevMode g); vm_compute; reflexivity. }
  destruct (Globals.isDevMode g); [|vm_compute; reflexivity].
  cbn [Descriptor.modeLabel Descriptor.config devOverrides Config.thinkingConfig
       Config.tools Config.empty].
  destruct (JsString.eqb _ _); [vm_compute; reflexivity|].
  destruct (JsString.includes _ _); vm_compute; reflexivity.
Qed.

(** X25. The state class [handleSend] adds to the container is
    [state-analyzing] with an attachment, [state-thinking] with a reasoning
    budget and [state-searching] with the search tool; a request with the
    maps tool alone gets [state-dev], as a plain request in developer mode
    does; a plain request outside developer mode gets none. *)
Theorem state_class_follows_request :
  forall (g : Globals.t) (text : jsstring) (hasMedia : bool),
    let d := determineConfig g text hasMedia in
    sendStateClass (Descriptor.modeLabel d) (Globals.isDevMode g)
    = if hasMedia then Some (js "state-analyzing")
      else match Config.thinkingConfig (Descriptor.config d),
                 Config.tools (Descriptor.config d) with
           | Some _, _ => Some (js "state-thinking")
           | None, Some tools =>
               if hasSearchTool tools then Some (js "state-searching")
               else Some (js "state-dev")
           | None, None =>
               if Globals.isDevMode g then Some (js "state-dev") else None
           end.
Proof.
  intros g text hasMedia d. subst d.
  unfold determineConfig, selectMode.
  destruct hasMedia.
  { destruct (mediaStartsWith _ _), (Globals.isDevMode g); vm_compute; reflexivity. }
  destruct (useThinking g text).
  { destruct (Globals.isDevMode g); vm_compute; reflexivity. }
  destruct (useSearch g text); cbn [orb].
  { destruct (useMaps g), (Globals.isDevMode g); vm_compute; reflexivity. }
  unfold useMaps.
  destruct (Globals.isDevMode g); cbn [andb]; [|vm_compute; reflexivity].
  destruct (DevConfig.forceTools _); [destruct (Tools.googleMaps _)|];
    try (vm_compute; reflexivity);
    cbn [Descriptor.modeLabel Descriptor.config devOverrides Config.thinkingConfig
         Config.tools Config.empty];
    (destruct (JsString.eqb _ _); [vm_compute; reflexivity|]);
    destruct (JsString.includes _ _); vm_compute; reflexivity.
Qed.

(* ------------------------------------------------------------------ *)
(** * Drag and drop, attachments, developer mode *)


(** A string without a comma is one piece; a comma after such a head ends
    the first piece. *)
Lemma splitComma_whole s :
  forallb (fun c => negb (c =? comma)%N) s = true -> splitComma s = [s].
Proof.
  induction s as [|c s IH]; cbn; [reflexivity|].
  intros H. apply andb_true_iff in H. destruct H as [Hc Hs].
  apply negb_true_iff in Hc. unfold comma in Hc. rewrite Hc, (IH Hs). reflexivity.
Qed.

Lemma splitComma_head head rest :
  forallb (fun c => negb (c =? comma)%N) head = true ->
  splitComma (head ++ comma :: rest) = head :: splitComma rest.
Proof.
  induction head as [|c head IH]; cbn [app splitComma forallb].
  - reflexivity.
  - intros H. apply andb_true_iff in H. destruct H as [Hc Hs].
    apply negb_true_iff in Hc. unfold comma in Hc. rewrite Hc, (IH Hs).
    reflexivity.
Qed.

(** X27. [handleFile] stages images and videos only.  A file whose type
    starts with neither [image/] nor [video/] leaves the module state as it
    is.  An accepted file whose data URL is a head, a comma and a payload
    (no comma in either) is staged with exactly the payload as data and its
    type as MIME type, replacing what was staged. *)
Theorem handleFile_stages_payload :
  forall (file : File.t) (g : Globals.t),
    (JsString.startsWith (File.type file) (js "image/") = false ->
     JsString.startsWith (File.type file) (js "video/") = false ->
     handleFile file g = Some g)
    /\ (forall head payload,
           JsString.startsWith (File.type file) (js "image/") = true
           \/ JsString.startsWith (File.type file) (js "video/") = true ->
           File.result file = head ++ comma :: payload ->
           forallb (fun c => negb (c =? comma)%N) head = true ->
           forallb (fun c => negb (c =? comma)%N) payload = true ->
           handleFile file g
           = Some (setCurrentMedia
                     (Some {| Media.data := payload;
                              Media.mimeType := File.type file |}) g)).
Proof.
  intros file g. unfold handleFile. split.
  - intros -> ->. reflexivity.
  - intros head payload Hacc Hres Hh Hp.
    replace (negb (JsString.startsWith (File.type file) (js "image/"))
             && negb (JsString.startsWith (File.type file) (js "video/")))
      with false
      by (destruct Hacc as [-> | ->]; [|rewrite andb_comm]; reflexivity).
    rewrite Hres, (splitComma_head head payload Hh), (splitComma_whole payload Hp).
    reflexivity.
Qed.

Lemma handleFile_stages_payload_witness :
  handleFile pdfFile Globals.initial = Some Globals.initial
  /\ handleFile pngFile Globals.initial
     = Some (setCurrentMedia
               (Some {| Media.data := js "iVBORw0KGgo=";
                        Media.mimeType := js "image/png" |})
               Globals.initial).
Proof.
  split.
  - apply (proj1 (handleFile_stages_payload pdfFile Globals.initial));
      reflexivity.
  - apply (proj2 (handleFile_stages_payload pngFile Globals.initial)
             (js "data:image/png;base64") (js "iVBORw0KGgo="));
      try reflexivity.
    left. reflexivity.
Defined.

Lemma prefixBy_shorter eq p q s :
  JsString.prefixBy eq (p ++ q) s = true -> JsString.prefixBy eq p s = true.
Proof.
  revert s. induction p as [|a p IH]; intros [|b s]; cbn; try easy.
  intros H. apply andb_true_iff in H. destruct H as [-> H]. now apply IH.
Qed.

Lemma prefixBy_first s a p :
  JsString.prefixBy N.eqb (a :: p) s = true -> exists t, s = a :: t.
Proof.
  destruct s as [|c t]; cbn [JsString.prefixBy]; [discriminate|].
  intros H. apply andb_true_iff in H. destruct H as [H _].
  apply N.eqb_eq in H. subst c. now exists t.
Qed.

(** X28. A file that [handleFile] stages is treated by its kind: the mode
    label of the descriptor is "Video Intelligence" for a video and "Visual
    Analysis" for an image (with the developer suffix in developer mode),
    and "Extract Text" is among the suggestions exactly for an image. *)
Theorem staged_file_is_treated_by_kind :
  forall (file : File.t) (g g' : Globals.t) (text : jsstring) (r : option Role),
    handleFile file g = Some g' ->
    JsString.startsWith (File.type file) (js "image/") = true
    \/ JsString.startsWith (File.type file) (js "video/") = true ->
    let isVideo := JsString.startsWith (File.type file) (js "video/") in
    hasMediaOf g' = true
    /\ Descriptor.modeLabel (determineConfig g' text (hasMediaOf g'))
       = (if isVideo then js "Video Intelligence" else js "Visual Analysis")
         ++ (if Globals.isDevMode g then js " (Dev)" else js "")
    /\ hasLabel "Extract Text" (getContextualActions g' text (hasMediaOf g') r)
       = negb isVideo.
Proof.
  intros file g g' text r Hf Hacc isVideo. subst isVideo.
  unfold handleFile in Hf.
  replace (negb (JsString.startsWith (File.type file) (js "image/"))
           && negb (JsString.startsWith (File.type file) (js "video/")))
    with false in Hf
    by (destruct Hacc as [-> | ->]; [|rewrite andb_comm]; reflexivity).
  destruct (nth_error _ 1) as [data|]; [|discriminate Hf].
  injection Hf as <-.
  assert (Hkind :
            mediaStartsWith
              (Some {| Media.data := data; Media.mimeType := File.type file |})
              (js "video")
            = JsString.startsWith (File.type file) (js "video/")
            /\ mediaStartsWith
                 (Some {| Media.data := data; Media.mimeType := File.type file |})
                 (js "image")
               = negb (JsString.startsWith (File.type file) (js "video/"))).
  { cbn [mediaStartsWith Media.mimeType]. unfold JsString.startsWith in *.
    destruct Hacc as [H | H].
    - rewrite (prefixBy_shorter N.eqb (js "image") (js "/") _ H).
      destruct (prefixBy_first (File.type file) 105 (js "mage/") H) as [t ->].
      split; reflexivity.
    - rewrite H, (prefixBy_shorter N.eqb (js "video") (js "/") _ H).
      destruct (prefixBy_first (File.type file) 118 (js "ideo/") H) as [t ->].
      split; reflexivity. }
  destruct Hkind as [Hv Hi].
  split; [reflexivity|]. split.
  - unfold hasMediaOf, determineConfig, selectMode.
    cbn [setCurrentMedia Globals.currentMedia Globals.isDevMode
         Descriptor.modeLabel].
    rewrite Hv.
    destruct (Globals.isDevMode g); cbn [Descriptor.modeLabel];
      [reflexivity|rewrite app_nil_r; reflexivity].
  - unfold hasMediaOf, getContextualActions, mediaActions.
    cbn [setCurrentMedia Globals.currentMedia]. rewrite Hi.
    destruct (JsString.startsWith (File.type file) (js "video/"));
      vm_compute; reflexivity.
Qed.

Lemma staged_file_is_treated_by_kind_witness :
  hasLabel "Extract Text"
    (getContextualActions
       (setCurrentMedia
          (Some {| Media.data := js "iVBORw0KGgo=";
                   Media.mimeType := js "image/png" |})
          Globals.initial)
       (js "") true None)
  = true.
Proof.
  refine (proj2 (proj2 (staged_file_is_treated_by_kind pngFile Globals.initial _
                          (js "") None _ _))).
  - reflexivity.
  - left. reflexivity.
Defined.

(** X29. A send with an attachment staged goes to [gemini-3-pro-preview]
    without reasoning budget or tools, whatever the text says; the message
    handed to [sendMessageStream] is the list of parts, the attachment
    first and the trimmed text, when there is one, after it; and the user
    turn pushed to the history holds these parts. *)
Theorem attachment_is_sent_first_to_pro_model :
  forall (env : Env.t) (w : World.t) (media : Media.t),
    Globals.currentMedia (World.globals w) = Some media ->
    let text := JsString.trim (World.inputValue w) in
    let parts :=
      inlinePart media :: (if JsString.truthy text then [textPart text] else []) in
    exists calls added,
      addedBy w (snd (handleSend env w)) calls
      /\ (forall m history c,
             In (ChatsCreate m history c) calls ->
             m = js "gemini-3-pro-preview"
             /\ Config.thinkingConfig c = None /\ Config.tools c = None)
      /\ (forall payload,
             In (SendMessageStream payload) calls -> payload = PartsPayload parts)
      /\ Globals.localHistory (World.globals (snd (handleSend env w)))
         = Globals.localHistory (World.globals w)
           ++ {| Message.role := user;
                 Message.parts := parts;
                 Message.timestamp := Env.userTimestamp env;
                 Message.mode := None |} :: added.
Proof.
  intros env w media Hm text parts.
  assert (Hsend : JsString.truthy (JsString.trim (World.inputValue w)) = true
                  \/ hasMediaOf (World.globals w) = true)
    by (right; unfold hasMediaOf; rewrite Hm; reflexivity).
  assert (Hhas : hasMediaOf (World.globals w) = true)
    by (unfold hasMediaOf; rewrite Hm; reflexivity).
  destruct (determineConfig_media (World.globals w) text)
    as (Hmodel & Hbudget & Htools).
  assert (Hparts : userParts text (Globals.currentMedia (World.globals w)) = parts)
    by (unfold userParts; rewrite Hm; reflexivity).
  assert (Hpay : payloadOf parts = PartsPayload parts).
  { subst parts. destruct (JsString.truthy text); reflexivity. }
  pose proof (handleSend_world env w Hsend) as H. cbv zeta in H.
  fold text in H. rewrite Hhas, Hparts, Hpay in H.
  set (d := determineConfig (World.globals w) text true) in *.
  destruct H
    as (_ & _ & [(e & calls & Ht & Hc & Hg & _) | (chunks & _ & _ & Hg & _ & Ht)]);
    unfold addedBy; rewrite Ht, Hg;
    cbn [afterUserTurn World.trace World.globals pushHistory
         Globals.localHistory setCurrentMedia setAppState
         setLastResponseContent];
    fold text; unfold userMessage; rewrite Hparts, <- !app_assoc; cbn [app];
    do 2 eexists; (split; [reflexivity|]);
    (split; [|split; [|reflexivity]]).
  - intros m history c Hin.
    destruct Hc as [-> | ->]; cbn [app] in Hin; in_cases;
      injection Hin as <- _ <-; auto.
  - intros payload Hin.
    destruct Hc as [-> | ->]; cbn [app] in Hin; in_cases.
    injection Hin as <-. reflexivity.
  - intros m history c Hin. in_cases. injection Hin as <- _ <-. auto.
  - intros payload Hin. in_cases. injection Hin as <-. reflexivity.
Qed.

Lemma attachment_is_sent_first_to_pro_model_witness :
  exists added,
    Globals.localHistory
      (World.globals
         (snd (handleSend brokenStream
                 {| World.globals := stagedWith "image/png";
                    World.storedHistory := None;
                    World.inputValue := js "";
                    World.sources := None;
                    World.trace := [] |})))
    = {| Message.role := user;
         Message.parts :=
           [inlinePart {| Media.data := js "AAAA"; Media.mimeType := js "image/png" |}];
         Message.timestamp := 1700000000000;
         Message.mode := None |} :: added.
Proof.
  destruct (attachment_is_sent_first_to_pro_model brokenStream
              {| World.globals := stagedWith "image/png";
                 World.storedHistory := None;
                 World.inputValue := js "";
                 World.sources := None;
                 World.trace := [] |}
              {| Media.data := js "AAAA"; Media.mimeType := js "image/png" |}
              eq_refl)
    as (calls & added & _ & _ & _ & H).
  exists added. exact H.
Defined.

(** X30. The paste listener reads one item only: the first whose type
    holds [image] or [video].  What comes after it is never staged, also
    when that item has no file or [handleFile] does not accept its type. *)
Theorem paste_reads_first_media_item_only :
  forall (before after : list ClipboardItem.t) (item : ClipboardItem.t)
         (g : Globals.t),
    Forall (fun i =>
              JsString.includes (ClipboardItem.type i) (js "image") = false
              /\ JsString.includes (ClipboardItem.type i) (js "video") = false)
           before ->
    JsString.includes (ClipboardItem.type item) (js "image") = true
    \/ JsString.includes (ClipboardItem.type item) (js "video") = true ->
    handlePaste (before ++ item :: after) g
    = match ClipboardItem.getAsFile item with
      | Some blob => handleFile blob g
      | None => Some g
      end.
Proof.
  intros before after item g Hb Hi.
  induction Hb as [|i before [H1 H2] _ IH]; cbn [app handlePaste].
  - replace (JsString.includes (ClipboardItem.type item) (js "image")
             || JsString.includes (ClipboardItem.type item) (js "video"))
      with true; [reflexivity|].
    destruct Hi as [-> | ->]; [|rewrite orb_comm]; reflexivity.
  - rewrite H1, H2. exact IH.
Qed.

Lemma paste_reads_first_media_item_only_witness :
  handlePaste
    [{| ClipboardItem.type := js "text/plain"; ClipboardItem.getAsFile := None |};
     {| ClipboardItem.type := js "text/x-image-link";
        ClipboardItem.getAsFile := None |};
     {| ClipboardItem.type := js "image/png";
        ClipboardItem.getAsFile := Some pngFile |}]
    Globals.initial
  = Some Globals.initial.
Proof.
  apply (paste_reads_first_media_item_only
           [{| ClipboardItem.type := js "text/plain";
               ClipboardItem.getAsFile := None |}]
           [{| ClipboardItem.type := js "image/png";
               ClipboardItem.getAsFile := Some pngFile |}]
           {| ClipboardItem.type := js "text/x-image-link";
              ClipboardItem.getAsFile := None |}
           Globals.initial).
  - repeat constructor.
  - left. reflexivity.
Defined.
